(** * quirc BMP front end: [load_bmp] and [main] of [main.c]

    A shallow embedding of the bitmap loader, its luminance conversion and
    the command-line driver, with the properties of the loader's
    specification stated over it.

    Conventions of the embedding.
    - A C [int] is a [Z] in the 32-bit signed range; arithmetic that may
      leave the range is wrapped with [wrap32] (two's complement, as the
      usual targets do). A [size_t] is 64 bits wide ([to_size_t]).
    - A [double] is IEEE 754 binary64 ([PrimFloat.float]) with each operation
      rounded to binary64 (no contraction, no extended precision).
    - The host is little-endian and the header structs are packed, as the
      source's [#pragma pack(push, 1)] asks.
    - Memory accesses outside a block, and a conversion of a [double] that
      does not fit the target integer type, are undefined behaviour: the
      embedding returns [None] there. *)

From Stdlib Require Import ZArith Lia.
From Stdlib.Strings Require Import Byte.
From Stdlib Require Import Floats.
From stdpp Require Import base tactics option list list_numbers strings.

Set Warnings "-inexact-float".
Local Open Scope Z_scope.

(** ** Machine integers and bytes *)

Definition INT_MAX : Z := 2147483647.
Definition INT_MIN : Z := -2147483648.

(** The value of an [int] expression whose mathematical result is [z]. *)
Definition wrap32 (z : Z) : Z := (z + 2 ^ 31) mod 2 ^ 32 - 2 ^ 31.

(** Conversion of an [int] to [size_t]. *)
Definition to_size_t (z : Z) : Z := z mod 2 ^ 64.

(** The value of a [uint8_t]. *)
Definition u8 (b : byte) : Z := Z.of_N (Byte.to_N b).

Definition all_bytes : list byte :=
  Eval vm_compute in
    omap (fun n => Byte.of_N (N.of_nat n)) (seq 0 256).

(** ** BGR to luminance: [(uint8_t)(0.299 * r + 0.587 * g + 0.114 * b)] *)

(** The promotion of a [uint8_t] to [double] (exact). *)
Definition double_of_u8 (b : byte) : float :=
  PrimFloat.of_uint63 (Uint63.of_Z (u8 b)).

(** The [double] expression, evaluated left to right. *)
Definition luma_sum (r g b : byte) : float :=
  (0.299 * double_of_u8 r + 0.587 * double_of_u8 g + 0.114 * double_of_u8 b)%float.

(** The integral part of a [double], rounded toward zero; [None] for a NaN or
    an infinity. A finite [double] is [(-1)^s * m * 2^e]: the magnitude is
    shifted (to the right, dropping the fraction, when [e] is negative) and
    the sign applied afterwards. *)
Definition trunc_float (f : float) : option Z :=
  match Prim2SF f with
  | S754_zero _ => Some 0
  | S754_finite s m e => Some (cond_Zopp s (Z.shiftl (Z.pos m) e))
  | S754_infinity _ | S754_nan => None
  end.

(** Conversion of a [double] to [uint8_t]: the truncated value when it can be
    represented, undefined otherwise. *)
Definition uint8_of_double (f : float) : option Z :=
  t ← trunc_float f;
  if bool_decide (0 <= t <= 255) then Some t else None.

Definition luma (r g b : byte) : option Z := uint8_of_double (luma_sum r g b).

(** The range test on the [double] itself, used to enumerate the inputs. *)
Definition in_byte_range (f : float) : bool :=
  (PrimFloat.leb 0 f && PrimFloat.ltb f 256)%bool.

(** The three products of [luma_sum], over every byte. *)
Definition red_terms : list float :=
  (fun r => (0.299 * double_of_u8 r)%float) <$> all_bytes.
Definition green_terms : list float :=
  (fun g => (0.587 * double_of_u8 g)%float) <$> all_bytes.
Definition blue_terms : list float :=
  (fun b => (0.114 * double_of_u8 b)%float) <$> all_bytes.

Definition forallb3 {A B C : Type} (p : A → B → C → bool)
    (la : list A) (lb : list B) (lc : list C) : bool :=
  forallb (fun a => forallb (fun b => forallb (p a b) lc) lb) la.

(** ** The BMP headers ([#pragma pack(push, 1)], little-endian host) *)

Record BMPFileHeader := {
  type : Z;        (* uint16_t, magic identifier 0x4d42 *)
  size : Z;        (* uint32_t *)
  reserved1 : Z;   (* uint16_t *)
  reserved2 : Z;   (* uint16_t *)
  offset : Z       (* uint32_t, offset of the image data *)
}.

Record BMPInfoHeader := {
  headerSize : Z;       (* uint32_t *)
  width : Z;            (* int32_t *)
  height : Z;           (* int32_t *)
  planes : Z;           (* uint16_t *)
  bitDepth : Z;         (* uint16_t *)
  compression : Z;      (* uint32_t *)
  imageSize : Z;        (* uint32_t *)
  xResolution : Z;      (* int32_t *)
  yResolution : Z;      (* int32_t *)
  numColors : Z;        (* uint32_t *)
  importantColors : Z   (* uint32_t *)
}.

Definition byte_at (raw : list byte) (i : nat) : Z := u8 (nth i raw x00).
Definition uint16_at (raw : list byte) (i : nat) : Z :=
  byte_at raw i + 2 ^ 8 * byte_at raw (i + 1).
Definition uint32_at (raw : list byte) (i : nat) : Z :=
  uint16_at raw i + 2 ^ 16 * uint16_at raw (i + 2).
Definition int32_at (raw : list byte) (i : nat) : Z :=
  let u := uint32_at raw i in if u <? 2 ^ 31 then u else u - 2 ^ 32.

(** The struct overlaid on the 14 bytes read. *)
Definition read_file_header (raw : list byte) : BMPFileHeader :=
  {| type := uint16_at raw 0; size := uint32_at raw 2;
     reserved1 := uint16_at raw 6; reserved2 := uint16_at raw 8;
     offset := uint32_at raw 10 |}.

(** The struct overlaid on the 40 bytes read. *)
Definition read_info_header (raw : list byte) : BMPInfoHeader :=
  {| headerSize := uint32_at raw 0; width := int32_at raw 4;
     height := int32_at raw 8; planes := uint16_at raw 12;
     bitDepth := uint16_at raw 14; compression := uint32_at raw 16;
     imageSize := uint32_at raw 20; xResolution := int32_at raw 24;
     yResolution := int32_at raw 28; numColors := uint32_at raw 32;
     importantColors := uint32_at raw 36 |}.

(** ** The state [load_bmp] and [main] act on *)

(** One constructor per [fprintf(stderr, ...)] of the source. *)
Inductive diagnostic :=
  | CannotOpen (filename : string)
  | NoFileHeader (filename : string)
  | BadMagic (filename : string)
  | NoInfoHeader (filename : string)
  | UnsupportedDepth (filename : string) (depth : Z)
  | UnsupportedCompression (filename : string)
  | NoImageMemory
  | NoRowMemory
  | TruncatedPixels (filename : string)
  | Usage (argv0 : option string)
  | FailedToLoad (filename : string)
  | QuircNewFailed
  | QuircResizeFailed
  | QuircBeginFailed
  | QuircCountFailed.

(** One constructor per [printf] of the source. *)
Inductive report :=
  | NoCodes
  | Found (count : Z)
  | Payload (index : Z) (payload : string)
  | DecodeFailed (index : Z) (reason : string).

(** A byte of a [malloc]ed block: [None] until it is written. *)
Abbreviation cell := (option Z).

Inductive block :=
  | Unallocated
  | Allocated (cells : list cell)
  | Freed.

(** The value of [*image_data]. *)
Inductive pointer :=
  | Null
  | PlanePtr.   (* the address [malloc] returned for the plane *)

Inductive stream := Unopened | Opened | Closed.

Inductive lifetime := NotAllocated | Live | Released.

Record state := {
  stderr : list diagnostic;
  stdout : list report;
  fopen_calls : list string;   (* the paths given to [fopen] *)
  malloc_calls : list Z;       (* the sizes given to [malloc] *)
  file : stream;
  out_width : option Z;        (* [*width]; [None] while not assigned *)
  out_height : option Z;       (* [*height] *)
  image_data : pointer;        (* [*image_data] *)
  plane : block;               (* the block [PlanePtr] points to *)
  bgr_row_buffer : lifetime
}.

(** The state [main] starts [load_bmp] in: [image_data = NULL], [width] and
    [height] not initialised. *)
Definition initial_state : state :=
  {| stderr := []; stdout := []; fopen_calls := []; malloc_calls := [];
     file := Unopened; out_width := None; out_height := None;
     image_data := Null; plane := Unallocated; bgr_row_buffer := NotAllocated |}.

Definition fprintf (d : diagnostic) (s : state) : state :=
  {| stderr := stderr s ++ [d]; stdout := stdout s;
     fopen_calls := fopen_calls s; malloc_calls := malloc_calls s;
     file := file s; out_width := out_width s; out_height := out_height s;
     image_data := image_data s; plane := plane s;
     bgr_row_buffer := bgr_row_buffer s |}.

Definition printf (r : report) (s : state) : state :=
  {| stderr := stderr s; stdout := stdout s ++ [r];
     fopen_calls := fopen_calls s; malloc_calls := malloc_calls s;
     file := file s; out_width := out_width s; out_height := out_height s;
     image_data := image_data s; plane := plane s;
     bgr_row_buffer := bgr_row_buffer s |}.

Definition with_fopen (filename : string) (f : stream) (s : state) : state :=
  {| stderr := stderr s; stdout := stdout s;
     fopen_calls := fopen_calls s ++ [filename]; malloc_calls := malloc_calls s;
     file := f; out_width := out_width s; out_height := out_height s;
     image_data := image_data s; plane := plane s;
     bgr_row_buffer := bgr_row_buffer s |}.

Definition fclose (s : state) : state :=
  {| stderr := stderr s; stdout := stdout s;
     fopen_calls := fopen_calls s; malloc_calls := malloc_calls s;
     file := Closed; out_width := out_width s; out_height := out_height s;
     image_data := image_data s; plane := plane s;
     bgr_row_buffer := bgr_row_buffer s |}.

(** [*width = w; *height = h]. *)
Definition set_dimensions (w h : Z) (s : state) : state :=
  {| stderr := stderr s; stdout := stdout s;
     fopen_calls := fopen_calls s; malloc_calls := malloc_calls s;
     file := file s; out_width := Some w; out_height := Some h;
     image_data := image_data s; plane := plane s;
     bgr_row_buffer := bgr_row_buffer s |}.

Definition with_malloc_call (n : Z) (s : state) : state :=
  {| stderr := stderr s; stdout := stdout s;
     fopen_calls := fopen_calls s; malloc_calls := malloc_calls s ++ [n];
     file := file s; out_width := out_width s; out_height := out_height s;
     image_data := image_data s; plane := plane s;
     bgr_row_buffer := bgr_row_buffer s |}.

(** [*image_data = p], [p] pointing to a block in state [b]. *)
Definition set_image_data (p : pointer) (b : block) (s : state) : state :=
  {| stderr := stderr s; stdout := stdout s;
     fopen_calls := fopen_calls s; malloc_calls := malloc_calls s;
     file := file s; out_width := out_width s; out_height := out_height s;
     image_data := p; plane := b;
     bgr_row_buffer := bgr_row_buffer s |}.

(** The contents of the plane after the row loop. *)
Definition with_plane (b : block) (s : state) : state :=
  set_image_data (image_data s) b s.

(** [free( *image_data )]: the pointer itself keeps its value. *)
Definition free_image_data (s : state) : state := with_plane Freed s.

Definition with_row_buffer (l : lifetime) (s : state) : state :=
  {| stderr := stderr s; stdout := stdout s;
     fopen_calls := fopen_calls s; malloc_calls := malloc_calls s;
     file := file s; out_width := out_width s; out_height := out_height s;
     image_data := image_data s; plane := plane s;
     bgr_row_buffer := l |}.

(** ** Reading the file *)

(** [fread(ptr, size, nmemb, file)] with the stream at [pos]: the bytes
    delivered and the number of complete items. *)
Definition fread (content : list byte) (pos size nmemb : Z) : list byte * Z :=
  let data := take (Z.to_nat (size * nmemb)) (drop (Z.to_nat pos) content) in
  (data, if size =? 0 then 0 else Z.of_nat (length data) / size).

(** ** Memory accesses *)

Definition load_byte (buf : list byte) (i : Z) : option byte :=
  if i <? 0 then None else buf !! Z.to_nat i.

Definition store_byte (cells : list cell) (i v : Z) : option (list cell) :=
  if (0 <=? i) && (i <? Z.of_nat (length cells))
  then Some (<[Z.to_nat i := Some v]> cells) else None.

(** ** [load_bmp] *)

(** The body of the loop over [x]: [grayscale_row_ptr] is [row_ptr] bytes
    into the plane. *)
Definition convert_pixel (row : list byte) (row_ptr x : Z)
    (cells : list cell) : option (list cell) :=
  b ← load_byte row (wrap32 (x * 3 + 0));
  g ← load_byte row (wrap32 (x * 3 + 1));
  r ← load_byte row (wrap32 (x * 3 + 2));
  v ← luma r g b;
  store_byte cells (row_ptr + x) v.

Fixpoint convert_row (row : list byte) (row_ptr : Z) (xs : list Z)
    (cells : list cell) : option (list cell) :=
  match xs with
  | [] => Some cells
  | x :: xs' =>
      cells' ← convert_pixel row row_ptr x cells;
      convert_row row row_ptr xs' cells'
  end.

Inductive rows_result :=
  | RowsUndefined                      (* an access outside a block *)
  | RowsShort                          (* [fread] delivered less than a row *)
  | RowsDone (cells : list cell).

(** The loop over [y], with the stream at [pos]; [w] and [h] are [*width]
    and [*height]. *)
Fixpoint read_rows (content : list byte) (w h row_padded : Z)
    (ys : list Z) (pos : Z) (cells : list cell) : rows_result :=
  match ys with
  | [] => RowsDone cells
  | y :: ys' =>
      let '(row, got) := fread content pos 1 (to_size_t row_padded) in
      if negb (got =? to_size_t row_padded) then RowsShort
      else
        match convert_row row (wrap32 ((h - 1 - y) * w)) (seqZ 0 w) cells with
        | None => RowsUndefined
        | Some cells' =>
            read_rows content w h row_padded ys'
              (pos + to_size_t row_padded) cells'
        end
  end.

(** The padded row length, [( *width * 3 + 3) & (~3)]. *)
Definition row_padded_of (w : Z) : Z := Z.land (wrap32 (w * 3 + 3)) (Z.lnot 3).

(** [infoHeader.height > 0 ? infoHeader.height : -infoHeader.height]. *)
Definition height_of (info : BMPInfoHeader) : Z :=
  if 0 <? height info then height info else wrap32 (- height info).

Section Loader.
(** The files [fopen] can open for reading, with their contents. *)
Variable fs : string → option (list byte).
(** Whether the [k]-th [malloc] of the run, asked for [n] bytes, succeeds. *)
Variable malloc_ok : nat → Z → bool.

Definition malloc (n : Z) (s : state) : bool * state :=
  (malloc_ok (length (malloc_calls s)) n, with_malloc_call n s).

(** The part of [load_bmp] after the two headers are accepted. *)
Definition load_pixels (filename : string) (content : list byte)
    (fileHeader : BMPFileHeader) (infoHeader : BMPInfoHeader)
    (s : state) : option (Z * state) :=
  let w := width infoHeader in
  let h := height_of infoHeader in
  let s := set_dimensions w h s in
  let row_padded := row_padded_of w in
  let '(ok, s) := malloc (to_size_t (wrap32 (w * h))) s in
  if negb ok then
    Some (-1, fclose (fprintf NoImageMemory (set_image_data Null (plane s) s)))
  else
    let cells := replicate (Z.to_nat (to_size_t (wrap32 (w * h)))) None in
    let s := set_image_data PlanePtr (Allocated cells) s in
    (* fseek(file, fileHeader.offset, SEEK_SET) *)
    let '(ok, s) := malloc (to_size_t row_padded) s in
    if negb ok then
      Some (-1, fclose (free_image_data (fprintf NoRowMemory s)))
    else
      let s := with_row_buffer Live s in
      match read_rows content w h row_padded (seqZ 0 h)
              (offset fileHeader) cells with
      | RowsUndefined => None
      | RowsShort =>
          Some (-1, fclose (free_image_data (with_row_buffer Released
                      (fprintf (TruncatedPixels filename) s))))
      | RowsDone cells' =>
          Some (0, fclose (with_row_buffer Released
                     (with_plane (Allocated cells') s)))
      end.

(** [int load_bmp(const char *filename, int *width, int *height,
    uint8_t **image_data)]: the value returned and the state left, or
    [None] when the run leaves defined behaviour. *)
Definition load_bmp (filename : string) (s : state) : option (Z * state) :=
  match fs filename with
  | None =>
      Some (-1, fprintf (CannotOpen filename) (with_fopen filename (file s) s))
  | Some content =>
      let s := with_fopen filename Opened s in
      let '(raw, got) := fread content 0 14 1 in
      if negb (got =? 1) then
        Some (-1, fclose (fprintf (NoFileHeader filename) s))
      else
        let fileHeader := read_file_header raw in
        if negb (type fileHeader =? 0x4D42) then
          Some (-1, fclose (fprintf (BadMagic filename) s))
        else
          let '(raw, got) := fread content 14 40 1 in
          if negb (got =? 1) then
            Some (-1, fclose (fprintf (NoInfoHeader filename) s))
          else
            let infoHeader := read_info_header raw in
            if negb (bitDepth infoHeader =? 24) then
              Some (-1, fclose (fprintf
                (UnsupportedDepth filename (bitDepth infoHeader)) s))
            else if negb (compression infoHeader =? 0) then
              Some (-1, fclose (fprintf (UnsupportedCompression filename) s))
            else load_pixels filename content fileHeader infoHeader s
  end.
End Loader.

(** ** [main] *)

(** The recognizer of [lib/quirc], which is not part of this program: what
    its entry points answer. *)
Record recognizer := {
  quirc_new : bool;                   (* the struct is not [NULL] *)
  quirc_resize : Z → Z → bool;        (* the result is [>= 0] *)
  quirc_begin : bool;                 (* the buffer is not [NULL] *)
  quirc_count : Z → Z → list cell → Z;
  (* [quirc_extract] and [quirc_decode] of the [i]-th code: the payload on
     [QUIRC_SUCCESS], else [quirc_strerror] of the error *)
  quirc_decode : Z → Z → list cell → Z → string + string
}.

Section Main.
Variable fs : string → option (list byte).
Variable malloc_ok : nat → Z → bool.
Variable qr : recognizer.

(** The body of the loop over the codes found. *)
Definition report_code (w h : Z) (image : list cell) (s : state) (i : Z)
    : state :=
  match quirc_decode qr w h image i with
  | inl payload => printf (Payload (i + 1) payload) s
  | inr reason => printf (DecodeFailed (i + 1) reason) s
  end.

(** [int main(int argc, char *argv[])]: the exit status and the state
    left, or [None] when the run leaves defined behaviour. *)
Definition main (argv : list string) : option (Z * state) :=
  let argc := Z.of_nat (length argv) in
  if argc <? 2 then Some (1, fprintf (Usage (argv !! 0%nat)) initial_state)
  else
    let filename := default EmptyString (argv !! 1%nat) in
    '(r, s) ← load_bmp fs malloc_ok filename initial_state;
    if negb (r =? 0) then Some (1, fprintf (FailedToLoad filename) s)
    else if negb (quirc_new qr) then
      Some (1, free_image_data (fprintf QuircNewFailed s))
    else
      w ← out_width s;
      h ← out_height s;
      if negb (quirc_resize qr w h) then
        Some (1, free_image_data (fprintf QuircResizeFailed s))
      else if negb (quirc_begin qr) then
        Some (1, free_image_data (fprintf QuircBeginFailed s))
      else
        match plane s with
        | Allocated cells =>
            (* memcpy(quirc_buffer, image_data, (size_t)width * height) *)
            let n := to_size_t (to_size_t w * to_size_t h) in
            if Z.of_nat (length cells) <? n then None
            else
              let image := take (Z.to_nat n) cells in
              let count := quirc_count qr w h image in
              if count <? 0 then
                Some (1, free_image_data (fprintf QuircCountFailed s))
              else
                let s :=
                  if count =? 0 then printf NoCodes s
                  else foldl (report_code w h image)
                         (printf (Found count) s) (seqZ 0 count) in
                Some (0, free_image_data s)
        | _ => None
        end.
End Main.

(** ** Vocabulary of the statements *)

(** The luminance byte of a pixel; [luma] is defined on every pixel
    ([luma_total] below). *)
Definition luminance (r g b : byte) : Z := default 0 (luma r g b).

(** The byte at offset [i] of a buffer. *)
Definition byte_of (buf : list byte) (i : Z) : byte :=
  default x00 (buf !! Z.to_nat i).

(** The luminance of the pixel whose three bytes (blue, green, red) start at
    offset [i] of a buffer. *)
Definition stored_luminance (buf : list byte) (i : Z) : Z :=
  luminance (byte_of buf (i + 2)) (byte_of buf (i + 1)) (byte_of buf i).

(** The luminance of the specification (section 4.2), in its own terms and
    on Stdlib's specification of IEEE 754 binary64 ([SpecFloat]) instead of
    the machine floats of [luma]: the coefficients are the decimal fractions
    299/1000, 587/1000 and 114/1000 rounded to binary64, each product and
    each sum is rounded to binary64, and the sum is truncated toward
    zero. *)
Definition binary64_of_Z (z : Z) : spec_float :=
  binary_normalize prec emax z 0 false.
Definition binary64_of_thousandths (n : Z) : spec_float :=
  SF64div (binary64_of_Z n) (binary64_of_Z 1000).
Definition weighted_sum (R G B : Z) : spec_float :=
  SF64add
    (SF64add (SF64mul (binary64_of_thousandths 299) (binary64_of_Z R))
             (SF64mul (binary64_of_thousandths 587) (binary64_of_Z G)))
    (SF64mul (binary64_of_thousandths 114) (binary64_of_Z B)).
(** The integer nearest to [(-1)^s m 2^e] between it and zero. *)
Definition truncate (x : spec_float) : option Z :=
  match x with
  | S754_zero _ => Some 0
  | S754_finite s m e =>
      Some (Z.quot (cond_Zopp s (Z.pos m * 2 ^ Z.max e 0)) (2 ^ Z.max (- e) 0))
  | S754_infinity _ | S754_nan => None
  end.
Definition spec_luminance (R G B : Z) : option Z :=
  truncate (weighted_sum R G B).

(** The two headers of a file of at least 54 bytes. *)
Definition file_header_of (content : list byte) : BMPFileHeader :=
  read_file_header (take 14 content).
Definition info_header_of (content : list byte) : BMPInfoHeader :=
  read_info_header (take 40 (drop 14 content)).

(** The files whose headers [load_bmp] accepts. *)
Definition accepted (content : list byte) : Prop :=
  54 <= Z.of_nat (length content)
  ∧ type (file_header_of content) = 0x4D42
  ∧ bitDepth (info_header_of content) = 24
  ∧ compression (info_header_of content) = 0.

(** Dimensions for which none of the [int] computations of [load_bmp]
    overflows. *)
Definition in_range (w h : Z) : Prop :=
  0 <= w ∧ 0 <= h <= INT_MAX ∧ w * 3 + 3 <= INT_MAX ∧ w * h <= INT_MAX.

(** The fields of the headers that [load_bmp] uses. *)
Definition declared_width (content : list byte) : Z :=
  width (info_header_of content).
Definition declared_height (content : list byte) : Z :=
  height (info_header_of content).
Definition pixel_offset (content : list byte) : Z :=
  offset (file_header_of content).
Definition stride (content : list byte) : Z :=
  row_padded_of (declared_width content).
(** The number of bytes [load_bmp] asks [fread] for each row. *)
Definition row_bytes (content : list byte) : Z := to_size_t (stride content).
(** The height [load_bmp] stores in [*height]. *)
Definition returned_height (content : list byte) : Z :=
  height_of (info_header_of content).
(** The size [load_bmp] asks [malloc] for the plane. *)
Definition plane_request (content : list byte) : Z :=
  to_size_t (wrap32 (declared_width content * returned_height content)).

(** The file ends before the end of row [y], rows of [n] bytes starting at
    offset [off]. *)
Definition row_missing (content : list byte) (off n y : Z) : Prop :=
  0 < n ∧ Z.of_nat (length content) < off + (y + 1) * n.

(** The row buffer after the [fread] of file row [y]. *)
Definition scratch_row (content : list byte) (y : Z) : list byte :=
  fst (fread content (pixel_offset content + y * stride content) 1
         (stride content)).

(** The error conditions of the specification (section 4.1) on a file that
    could be opened, [k] calls of [malloc] having been made before. *)

(** The file ends before the end of the two headers. *)
Definition truncated_header (content : list byte) : Prop :=
  Z.of_nat (length content) < 54.

(** Validation, as the specification uses the word: the checks of the magic,
    the bit depth and the compression, each on a header read in full. *)
Definition validation_fails (content : list byte) : Prop :=
  (14 <= Z.of_nat (length content)
   ∧ type (file_header_of content) ≠ 0x4D42)
  ∨ (54 <= Z.of_nat (length content)
     ∧ (bitDepth (info_header_of content) ≠ 24
        ∨ compression (info_header_of content) ≠ 0)).

(** The plane or the row buffer is refused. *)
Definition allocation_fails (malloc_ok : nat → Z → bool) (k : nat)
    (content : list byte) : Prop :=
  malloc_ok k (plane_request content) = false
  ∨ malloc_ok (S k) (row_bytes content) = false.

(** The file ends before the end of one of its rows. *)
Definition pixels_truncated (content : list byte) : Prop :=
  ∃ y, 0 <= y < returned_height content
       ∧ row_missing content (pixel_offset content) (row_bytes content) y.

(** ** Test images *)

Definition byte_of_Z (z : Z) : byte :=
  default x00 (Byte.of_N (Z.to_N (z mod 256))).

(** Little-endian encodings of 16- and 32-bit fields (two's complement). *)
Definition le16 (z : Z) : list byte := [byte_of_Z z; byte_of_Z (z / 2 ^ 8)].
Definition le32 (z : Z) : list byte := le16 z ++ le16 (z / 2 ^ 16).

(** The 54 header bytes of a BMP file. *)
Definition bmp_headers (magic offs w h depth comp : Z) : list byte :=
  le16 magic ++ le32 0 ++ le16 0 ++ le16 0 ++ le32 offs
  ++ le32 40 ++ le32 w ++ le32 h ++ le16 1 ++ le16 depth ++ le32 comp
  ++ le32 0 ++ le32 0 ++ le32 0 ++ le32 0 ++ le32 0.

(** A pixel as stored: blue, green, red. *)
Definition bgr (r g b : Z) : list byte := [byte_of_Z b; byte_of_Z g; byte_of_Z r].
Definition black : list byte := bgr 0 0 0.
Definition white : list byte := bgr 255 255 255.
Definition padding (n : nat) (z : Z) : list byte := replicate n (byte_of_Z z).

(** One white pixel, one red pixel, each with one byte of padding. *)
Definition white_pixel : list byte :=
  bmp_headers 0x4D42 54 1 1 24 0 ++ white ++ padding 1 0.
Definition red_pixel : list byte :=
  bmp_headers 0x4D42 54 1 1 24 0 ++ bgr 255 0 0 ++ padding 1 0.

(** Valid headers but for a bit depth of 8. *)
Definition depth_8 : list byte :=
  bmp_headers 0x4D42 54 2 2 8 0 ++ padding 16 0.

(** The 2x2 checkerboard stored bottom-up: in file order the rows are
    black,white and white,black. *)
Definition checkerboard_bottom_up : list byte :=
  bmp_headers 0x4D42 54 2 2 24 0
  ++ black ++ white ++ padding 2 0
  ++ white ++ black ++ padding 2 0.

(** [checkerboard_bottom_up] with the sign of its height field changed and
    no other byte touched. *)
Definition checkerboard_negated_height : list byte :=
  bmp_headers 0x4D42 54 2 (-2) 24 0
  ++ black ++ white ++ padding 2 0
  ++ white ++ black ++ padding 2 0.

(** The same image stored top-down (height field -2): the rows come in the
    other order. *)
Definition checkerboard_top_down : list byte :=
  bmp_headers 0x4D42 54 2 (-2) 24 0
  ++ white ++ black ++ padding 2 0
  ++ black ++ white ++ padding 2 0.


(** Headers for a 10x10 image followed by five of the ten rows. *)
Definition truncated_10x10 : list byte :=
  bmp_headers 0x4D42 54 10 10 24 0 ++ padding (5 * 32) 0x80.

(** A file that starts with the bytes X, M. *)
Definition bad_magic : list byte :=
  bmp_headers 0x4D58 54 2 2 24 0 ++ padding 16 0.

(** Headers for an image of 2^30 x 2 pixels, without any row. *)
Definition headers_huge : list byte :=
  bmp_headers 0x4D42 54 1073741824 2 24 0.

(** A 2x2 bottom-up image of four colours: in file order the rows are
    red,green and blue,(R 10, G 20, B 30). *)
Definition colour_2x2 : list byte :=
  bmp_headers 0x4D42 54 2 2 24 0
  ++ bgr 255 0 0 ++ bgr 0 255 0 ++ padding 2 0
  ++ bgr 0 0 255 ++ bgr 10 20 30 ++ padding 2 0.

(** Valid headers that declare a width of zero, a height of zero. *)
Definition zero_width : list byte := bmp_headers 0x4D42 54 0 1 24 0.
Definition zero_height : list byte := bmp_headers 0x4D42 54 1 0 24 0.

(** [checkerboard_bottom_up] with other values in the fields [load_bmp]
    does not read: file size, reserved words, header size, planes, image
    size, resolutions and colour counts. *)
Definition checkerboard_other_advisory : list byte :=
  le16 0x4D42 ++ le32 70 ++ le16 7 ++ le16 9 ++ le32 54
  ++ le32 124 ++ le32 2 ++ le32 2 ++ le16 3 ++ le16 24 ++ le32 0
  ++ le32 16 ++ le32 2835 ++ le32 (-2835) ++ le32 256 ++ le32 1
  ++ black ++ white ++ padding 2 0
  ++ white ++ black ++ padding 2 0.

(** A recognizer that finds two codes and decodes the first. *)
Definition two_codes : recognizer :=
  {| quirc_new := true; quirc_resize := fun _ _ => true; quirc_begin := true;
     quirc_count := fun _ _ _ => 2;
     quirc_decode := fun _ _ _ i =>
       if i =? 0 then inl "HELLO"%string else inr "ECC failure"%string |}.

(** The line [main] prints for the [i]-th code. *)
Definition report_line (qr : recognizer) (w h : Z) (image : list cell)
    (i : Z) : report :=
  match quirc_decode qr w h image i with
  | inl payload => Payload (i + 1) payload
  | inr reason => DecodeFailed (i + 1) reason
  end.

(** The next level of a channel, 255 staying 255. *)
Definition next_level (b : byte) : byte := byte_of_Z (Z.min 255 (u8 b + 1)).

(** The products of [luma_sum] at every level and at the next one. *)
Definition red_steps : list (float * float) :=
  (fun r => ((0.299 * double_of_u8 r)%float,
             (0.299 * double_of_u8 (next_level r))%float)) <$> all_bytes.
Definition green_steps : list (float * float) :=
  (fun g => ((0.587 * double_of_u8 g)%float,
             (0.587 * double_of_u8 (next_level g))%float)) <$> all_bytes.
Definition blue_steps : list (float * float) :=
  (fun b => ((0.114 * double_of_u8 b)%float,
             (0.114 * double_of_u8 (next_level b))%float)) <$> all_bytes.

(** Whether a gray pixel keeps its level or comes out one below. *)
Definition gray_within_one (v : byte) : bool :=
  match luma v v v with
  | Some t => (t =? u8 v) || (t =? u8 v - 1)
  | None => false
  end.

(** The header bytes [load_bmp] does not read. *)
Definition advisory_byte (i : nat) : Prop :=
  (2 <= i < 10 ∨ 14 <= i < 18 ∨ 26 <= i < 28 ∨ 34 <= i < 54)%nat.

(** A file system with one file, whatever the path. *)
Definition single_file (content : list byte) : string → option (list byte) :=
  fun _ => Some content.

(** An allocator that grants every request. *)
Definition malloc_always : nat → Z → bool := fun _ _ => true.

(** An allocator that refuses requests of 2 GiB and more. *)
Definition malloc_small : nat → Z → bool := fun _ n => n <? 2 ^ 31.

(** An allocator that grants the first request only. *)
Definition malloc_once : nat → Z → bool := fun k _ => bool_decide (k = 0%nat).

(** A recognizer that finds no code. *)
Definition no_codes : recognizer :=
  {| quirc_new := true; quirc_resize := fun _ _ => true; quirc_begin := true;
     quirc_count := fun _ _ _ => 0;
     quirc_decode := fun _ _ _ _ => inr EmptyString |}.

(** * Properties *)

(** ** Luminance *)

Lemma elem_of_all_bytes (b : byte) : b ∈ all_bytes.
Proof.
  change all_bytes with (omap (fun n => Byte.of_N (N.of_nat n)) (seq 0 256)).
  apply list_elem_of_omap. exists (N.to_nat (Byte.to_N b)). split.
  - apply list_elem_of_In, in_seq.
    pose proof (Byte.to_N_bounded b). lia.
  - rewrite N2Nat.id. apply Byte.of_to_N.
Qed.

Lemma digits2_pos_bound (m : positive) :
  Z.pos m < 2 ^ Z.pos (digits2_pos m).
Proof.
  induction m as [m IH|m IH|]; simpl digits2_pos.
  - rewrite Pos2Z.inj_succ, Z.pow_succ_r by lia. lia.
  - rewrite Pos2Z.inj_succ, Z.pow_succ_r by lia. lia.
  - reflexivity.
Qed.

Lemma valid_mantissa_bound (s : bool) (m : positive) (e : Z) :
  valid_binary (S754_finite s m e) = true → Z.pos m < 2 ^ 53.
Proof.
  unfold valid_binary, bounded, canonical_mantissa, fexp, emin, prec, emax.
  intros [Hc _]%andb_prop.
  apply Z.eqb_eq in Hc.
  pose proof (digits2_pos_bound m) as Hd.
  assert (Z.pos (digits2_pos m) <= 53) by lia.
  eapply Z.lt_le_trans; [exact Hd|].
  apply Z.pow_le_mono_r; lia.
Qed.

Lemma Prim2SF_zero : Prim2SF 0 = S754_zero false.
Proof. vm_compute. reflexivity. Qed.

Lemma Prim2SF_256 : Prim2SF 256 = S754_finite false 4503599627370496 (-44).
Proof. vm_compute. reflexivity. Qed.

Lemma shiftr_mantissa_bound (m e : Z) :
  0 < m < 2 ^ 53 → 45 <= e → 0 <= m / 2 ^ e <= 255.
Proof.
  intros Hm He.
  assert (2 ^ 45 <= 2 ^ e) as Hp by (apply Z.pow_le_mono_r; lia).
  assert (2 ^ 53 = 2 ^ 45 * 256) as H53 by reflexivity.
  assert (0 < 2 ^ 45) as H45 by reflexivity.
  split.
  - apply Z.div_pos; lia.
  - assert (m / 2 ^ e < 256); [|lia].
    apply Z.div_lt_upper_bound; [lia|nia].
Qed.

Lemma in_byte_range_trunc (f : float) :
  in_byte_range f = true →
  ∃ t, trunc_float f = Some t ∧ 0 <= t <= 255.
Proof.
  unfold in_byte_range. intros [Hle Hlt]%andb_prop.
  rewrite leb_spec, Prim2SF_zero in Hle. rewrite ltb_spec, Prim2SF_256 in Hlt.
  pose proof (Prim2SF_valid f) as Hv.
  unfold trunc_float.
  destruct (Prim2SF f) as [s| s | |s m e].
  - exists 0. split; [done|lia].
  - destruct s; discriminate.
  - discriminate.
  - destruct s; [discriminate|].
    apply valid_mantissa_bound in Hv.
    exists (Z.shiftl (Z.pos m) e). split; [done|].
    unfold SFltb, SFcompare in Hlt.
    destruct (Z.compare_spec e (-44)) as [->|He|He]; [| |discriminate].
    + destruct (PosDef.Pos.compare_cont Eq m 4503599627370496) eqn:Hm;
        try discriminate.
      change (Z.shiftl (Z.pos m) (-44)) with (Z.shiftr (Z.pos m) 44).
      rewrite Z.shiftr_div_pow2 by lia.
      assert (Z.pos m < 4503599627370496) as Hm'
        by (apply Pos2Z.pos_lt_pos; exact Hm).
      assert (2 ^ 44 = 17592186044416) as -> by reflexivity.
      split; [apply Z.div_pos; lia|].
      assert (Z.pos m / 17592186044416 < 256); [|lia].
      apply Z.div_lt_upper_bound; lia.
    + rewrite <- (Z.opp_involutive e), Z.shiftl_opp_r, Z.shiftr_div_pow2 by lia.
      apply shiftr_mantissa_bound; lia.
Qed.

Lemma forallb3_spec {A B C : Type} (p : A → B → C → bool) la lb lc a b c :
  forallb3 p la lb lc = true → a ∈ la → b ∈ lb → c ∈ lc → p a b c = true.
Proof.
  unfold forallb3. intros H Ha%list_elem_of_In Hb%list_elem_of_In Hc%list_elem_of_In.
  rewrite forallb_forall in H. specialize (H a Ha).
  rewrite forallb_forall in H. specialize (H b Hb).
  rewrite forallb_forall in H. exact (H c Hc).
Qed.

Lemma luma_range_check_true :
  forallb3 (fun fr fg fb => in_byte_range (fr + fg + fb)%float)
    red_terms green_terms blue_terms = true.
Proof. vm_compute. reflexivity. Qed.

Lemma luma_sum_in_byte_range (r g b : byte) :
  in_byte_range (luma_sum r g b) = true.
Proof.
  apply (forallb3_spec _ _ _ _ _ _ _ luma_range_check_true).
  - apply (list_elem_of_fmap_2 (fun r => (0.299 * double_of_u8 r)%float)),
      elem_of_all_bytes.
  - apply (list_elem_of_fmap_2 (fun g => (0.587 * double_of_u8 g)%float)),
      elem_of_all_bytes.
  - apply (list_elem_of_fmap_2 (fun b => (0.114 * double_of_u8 b)%float)),
      elem_of_all_bytes.
Qed.

(** The luminance of a pixel, as a total function. *)
Lemma luma_total (r g b : byte) : ∃ t, luma r g b = Some t ∧ 0 <= t <= 255.
Proof.
  destruct (in_byte_range_trunc _ (luma_sum_in_byte_range r g b)) as (t & Ht & Hr).
  exists t. split; [|done].
  unfold luma, uint8_of_double. rewrite Ht. simpl.
  by rewrite bool_decide_eq_true_2.
Qed.

Lemma luma_luminance (r g b : byte) : luma r g b = Some (luminance r g b).
Proof.
  unfold luminance. destruct (luma_total r g b) as (t & -> & _). done.
Qed.

Lemma luminance_range (r g b : byte) : 0 <= luminance r g b <= 255.
Proof.
  unfold luminance. destruct (luma_total r g b) as (t & -> & Ht). done.
Qed.

(** ** Machine arithmetic *)

Lemma wrap32_id (z : Z) : INT_MIN <= z <= INT_MAX → wrap32 z = z.
Proof.
  unfold wrap32, INT_MIN, INT_MAX. intros H.
  rewrite Z.mod_small; lia.
Qed.

Lemma wrap32_range (z : Z) : INT_MIN <= wrap32 z <= INT_MAX.
Proof.
  unfold wrap32, INT_MIN, INT_MAX.
  pose proof (Z.mod_pos_bound (z + 2 ^ 31) (2 ^ 32)). lia.
Qed.

Lemma to_size_t_id (z : Z) : 0 <= z < 2 ^ 64 → to_size_t z = z.
Proof. unfold to_size_t. intros H. by rewrite Z.mod_small. Qed.

Lemma to_size_t_range (z : Z) : 0 <= to_size_t z < 2 ^ 64.
Proof. unfold to_size_t. apply Z.mod_pos_bound. lia. Qed.

Lemma land_lnot_3 (z : Z) : Z.land z (Z.lnot 3) = 4 * (z / 4).
Proof.
  replace (4 * (z / 4)) with (Z.shiftl (Z.shiftr z 2) 2)
    by (rewrite Z.shiftl_mul_pow2, Z.shiftr_div_pow2 by lia;
        change (2 ^ 2) with 4; lia).
  apply Z.bits_inj'. intros k Hk.
  rewrite Z.land_spec, Z.lnot_spec by done.
  destruct (Z.lt_ge_cases k 2) as [Hlt|Hge].
  - rewrite Z.shiftl_spec_low by done.
    assert (k = 0 ∨ k = 1) as [->| ->] by lia; simpl; apply andb_false_r.
  - rewrite Z.shiftl_spec_high, Z.shiftr_spec by lia.
    replace (k - 2 + 2) with k by lia.
    change 3 with (Z.ones 2). rewrite Z.ones_spec_high by lia.
    apply andb_true_r.
Qed.

Lemma row_padded_of_eq (w : Z) :
  0 <= w → w * 3 + 3 <= INT_MAX →
  row_padded_of w = 4 * ((w * 3 + 3) / 4).
Proof.
  intros Hw Hmax. unfold row_padded_of.
  rewrite wrap32_id by (unfold INT_MIN, INT_MAX in *; lia).
  apply land_lnot_3.
Qed.

Lemma row_padded_of_bounds (w : Z) :
  0 <= w → w * 3 + 3 <= INT_MAX →
  w * 3 <= row_padded_of w <= w * 3 + 3 ∧ row_padded_of w mod 4 = 0.
Proof.
  intros Hw Hmax. rewrite row_padded_of_eq by done.
  pose proof (Z.div_mod (w * 3 + 3) 4 ltac:(lia)).
  pose proof (Z.mod_pos_bound (w * 3 + 3) 4 ltac:(lia)).
  split; [lia|]. rewrite Z.mul_comm. apply Z.mod_mul. lia.
Qed.

Lemma u8_range (b : byte) : 0 <= u8 b <= 255.
Proof. unfold u8. pose proof (Byte.to_N_bounded b). lia. Qed.

Lemma byte_at_range raw i : 0 <= byte_at raw i <= 255.
Proof. apply u8_range. Qed.

Lemma uint16_at_range raw i : 0 <= uint16_at raw i < 2 ^ 16.
Proof.
  unfold uint16_at.
  pose proof (byte_at_range raw i). pose proof (byte_at_range raw (i + 1)).
  lia.
Qed.

Lemma uint32_at_range raw i : 0 <= uint32_at raw i < 2 ^ 32.
Proof.
  unfold uint32_at.
  pose proof (uint16_at_range raw i). pose proof (uint16_at_range raw (i + 2)).
  lia.
Qed.

Lemma int32_at_range raw i : INT_MIN <= int32_at raw i <= INT_MAX.
Proof.
  unfold int32_at, INT_MIN, INT_MAX.
  pose proof (uint32_at_range raw i).
  destruct (Z.ltb_spec (uint32_at raw i) (2 ^ 31)); lia.
Qed.

Lemma height_of_abs (info : BMPInfoHeader) :
  INT_MIN < height info <= INT_MAX → height_of info = Z.abs (height info).
Proof.
  intros H. unfold height_of.
  destruct (Z.ltb_spec 0 (height info)); [lia|].
  rewrite wrap32_id by (unfold INT_MIN, INT_MAX in *; lia). lia.
Qed.

(** ** Memory accesses and [fread] *)

Lemma load_byte_Some (buf : list byte) (i : Z) :
  0 <= i < Z.of_nat (length buf) → load_byte buf i = Some (byte_of buf i).
Proof.
  intros Hi. unfold load_byte, byte_of.
  destruct (Z.ltb_spec i 0); [lia|].
  destruct (lookup_lt_is_Some_2 buf (Z.to_nat i)) as [b ->]; [lia|done].
Qed.

Lemma store_byte_Some (cells : list cell) (i v : Z) :
  0 <= i < Z.of_nat (length cells) →
  store_byte cells i v = Some (<[Z.to_nat i := Some v]> cells).
Proof.
  intros Hi. unfold store_byte.
  destruct (Z.leb_spec 0 i); [|lia].
  destruct (Z.ltb_spec i (Z.of_nat (length cells))); [done|lia].
Qed.

Lemma store_byte_length (cells cells' : list cell) (i v : Z) :
  store_byte cells i v = Some cells' → length cells' = length cells.
Proof.
  unfold store_byte. intros H.
  destruct (_ && _); simplify_eq. apply length_insert.
Qed.

Lemma fread_bytes (content : list byte) (pos n : Z) :
  fread content pos 1 n =
    (take (Z.to_nat n) (drop (Z.to_nat pos) content),
     Z.of_nat (length (take (Z.to_nat n) (drop (Z.to_nat pos) content)))).
Proof.
  unfold fread. rewrite Z.mul_1_l. simpl. by rewrite Z.div_1_r.
Qed.

Lemma fread_bytes_full (content : list byte) (pos n : Z) :
  0 <= pos → 0 <= n →
  snd (fread content pos 1 n) = n ↔
  n = 0 ∨ pos + n <= Z.of_nat (length content).
Proof.
  intros Hpos Hn. rewrite fread_bytes. simpl.
  rewrite length_take, length_drop. lia.
Qed.

Lemma fread_bytes_short (content : list byte) (pos off n y : Z) :
  0 <= off → 0 <= n → 0 <= y → pos = off + y * n →
  snd (fread content pos 1 n) ≠ n ↔ row_missing content off n y.
Proof.
  intros Hoff Hn Hy ->. unfold row_missing.
  rewrite fread_bytes_full by lia. lia.
Qed.

Lemma byte_of_fread (content : list byte) (pos n i : Z) :
  0 <= pos → 0 <= i < n →
  byte_of (fst (fread content pos 1 n)) i = byte_of content (pos + i).
Proof.
  intros Hpos Hi. rewrite fread_bytes. simpl. unfold byte_of.
  rewrite lookup_take_lt by lia. rewrite lookup_drop.
  do 2 f_equal. lia.
Qed.

Lemma stored_luminance_fread (content : list byte) (pos n i : Z) :
  0 <= pos → 0 <= i → i + 2 < n →
  stored_luminance (fst (fread content pos 1 n)) i =
    stored_luminance content (pos + i).
Proof.
  intros Hpos Hi Hn. unfold stored_luminance.
  rewrite !byte_of_fread by lia.
  by rewrite !Z.add_assoc.
Qed.

(** ** The loop over the pixels of a row *)

Lemma convert_pixel_spec (row : list byte) (p x : Z) (cells : list cell) :
  0 <= x → x * 3 + 2 <= INT_MAX → x * 3 + 2 < Z.of_nat (length row) →
  0 <= p + x < Z.of_nat (length cells) →
  convert_pixel row p x cells =
    Some (<[Z.to_nat (p + x) := Some (stored_luminance row (x * 3))]> cells).
Proof.
  intros Hx Hmax Hrow Hp. unfold convert_pixel, stored_luminance.
  rewrite !wrap32_id by (unfold INT_MIN, INT_MAX in *; lia).
  rewrite !load_byte_Some by lia. simpl.
  rewrite Z.add_0_r, luma_luminance. simpl.
  by apply store_byte_Some.
Qed.

Lemma convert_pixel_length row p x cells cells' :
  convert_pixel row p x cells = Some cells' → length cells' = length cells.
Proof.
  unfold convert_pixel. intros H. simplify_option_eq.
  by eapply store_byte_length.
Qed.

Lemma convert_row_length row p xs cells cells' :
  convert_row row p xs cells = Some cells' → length cells' = length cells.
Proof.
  revert cells. induction xs as [|x xs IH]; intros cells H; simpl in H.
  - by simplify_eq.
  - destruct (convert_pixel row p x cells) as [c|] eqn:Hc; [|done].
    simpl in H. rewrite (IH _ H). by eapply convert_pixel_length.
Qed.

(** Columns [k .. k+m-1] of a row, written at [p + x]. *)
Lemma convert_row_spec (row : list byte) (p : Z) (m : nat) :
  ∀ (k : Z) (cells : list cell),
    0 <= k → (k + Z.of_nat m) * 3 <= INT_MAX →
    (k + Z.of_nat m) * 3 <= Z.of_nat (length row) →
    0 <= p + k → p + k + Z.of_nat m <= Z.of_nat (length cells) →
    ∃ cells',
      convert_row row p (seqZ k (Z.of_nat m)) cells = Some cells'
      ∧ length cells' = length cells
      ∧ (∀ x, k <= x < k + Z.of_nat m →
           cells' !! Z.to_nat (p + x) = Some (Some (stored_luminance row (x * 3))))
      ∧ (∀ i, ¬ (p + k <= Z.of_nat i < p + k + Z.of_nat m) →
           cells' !! i = cells !! i).
Proof.
  induction m as [|m IH]; intros k cells Hk Hmax Hrow Hp Hlen.
  - exists cells. simpl. split_and!; [done|done|lia|done].
  - rewrite seqZ_cons by lia. simpl convert_row.
    rewrite convert_pixel_spec by lia. simpl.
    replace (Z.pred (Z.of_nat (S m))) with (Z.of_nat m) by lia.
    destruct (IH (Z.succ k) (<[Z.to_nat (p + k) :=
                Some (stored_luminance row (k * 3))]> cells))
      as (cells' & Hrun & Hl & Hin & Hout);
      [lia|lia|lia|lia|rewrite length_insert; lia|].
    exists cells'. rewrite length_insert in Hl. split_and!; [done|done| |].
    + intros x Hx. destruct (Z.eq_dec x k) as [->|Hne].
      * rewrite Hout by lia.
        apply list_lookup_insert_eq. lia.
      * apply Hin. lia.
    + intros i Hi. rewrite Hout by lia.
      apply list_lookup_insert_ne. lia.
Qed.

(** ** The loop over the rows *)

Lemma read_rows_length content w h n ys pos cells cells' :
  read_rows content w h n ys pos cells = RowsDone cells' →
  length cells' = length cells.
Proof.
  revert pos cells. induction ys as [|y ys IH]; intros pos cells H; simpl in H.
  - by simplify_eq.
  - destruct (fread content pos 1 (to_size_t n)) as [row got].
    destruct (negb _); [done|].
    destruct (convert_row _ _ _ _) as [c|] eqn:Hc; [|done].
    rewrite (IH _ _ H). by eapply convert_row_length.
Qed.

Lemma read_rows_cons content w h n y ys pos cells :
  read_rows content w h n (y :: ys) pos cells =
    let '(row, got) := fread content pos 1 (to_size_t n) in
    if negb (got =? to_size_t n) then RowsShort
    else
      match convert_row row (wrap32 ((h - 1 - y) * w)) (seqZ 0 w) cells with
      | None => RowsUndefined
      | Some cells' =>
          read_rows content w h n ys (pos + to_size_t n) cells'
      end.
Proof. reflexivity. Qed.

(** Rows [k .. k+m-1] of the file, for dimensions in range: the loop stays
    within the two blocks, stops at the first row the file does not hold,
    and otherwise has written row [y] of the file to row [h - 1 - y] of the
    plane. *)
Lemma read_rows_spec (content : list byte) (w h off : Z) (m : nat) :
  in_range w h → 0 <= off →
  ∀ (k : Z) (cells : list cell),
    0 <= k → k + Z.of_nat m <= h → Z.of_nat (length cells) = w * h →
    match read_rows content w h (row_padded_of w) (seqZ k (Z.of_nat m))
            (off + k * to_size_t (row_padded_of w)) cells with
    | RowsUndefined => False
    | RowsShort =>
        ∃ y, k <= y < k + Z.of_nat m
             ∧ row_missing content off (row_padded_of w) y
    | RowsDone cells' =>
        length cells' = length cells
        ∧ (∀ y, k <= y < k + Z.of_nat m →
             ¬ row_missing content off (row_padded_of w) y)
        ∧ (∀ y x, k <= y < k + Z.of_nat m → 0 <= x < w →
             cells' !! Z.to_nat ((h - 1 - y) * w + x) =
               Some (Some (stored_luminance content
                             (off + y * row_padded_of w + x * 3))))
        ∧ (∀ i, ¬ ((h - k - Z.of_nat m) * w <= Z.of_nat i < (h - k) * w) →
             cells' !! i = cells !! i)
    end.
Proof.
  intros (Hw & [Hh _] & Hw3 & Hwh) Hoff.
  destruct (row_padded_of_bounds w Hw Hw3) as [Hn _].
  generalize dependent (row_padded_of w). intros n Hn.
  assert (to_size_t n = n) as Hsz
    by (apply to_size_t_id; unfold INT_MAX in *; lia).
  rewrite Hsz.
  induction m as [|m IH]; intros k cells Hk Hkm Hlen.
  - rewrite seqZ_nil by lia. simpl. split_and!; [done|lia|lia|done].
  - rewrite seqZ_cons by lia. rewrite read_rows_cons, Hsz.
    replace (Z.pred (Z.of_nat (S m))) with (Z.of_nat m) by lia.
    pose proof (fread_bytes_short content (off + k * n) off n k
                  Hoff ltac:(lia) Hk eq_refl) as Hshort.
    pose proof (stored_luminance_fread content (off + k * n) n) as Hlum.
    destruct (fread content (off + k * n) 1 n) as [row got] eqn:Hread.
    simpl in Hshort, Hlum.
    destruct (Z.eqb_spec got n) as [->|Hgot]; simpl.
    2:{ exists k. split; [lia|]. by apply Hshort. }
    assert (Z.of_nat (length row) = n) as Hrow.
    { pose proof (fread_bytes content (off + k * n) n) as Hfb.
      rewrite Hread in Hfb. by simplify_eq. }
    assert (0 <= (h - 1 - k) * w) as Hp0 by nia.
    assert ((h - 1 - k) * w + w <= w * h) as Hp1 by nia.
    rewrite wrap32_id by (unfold INT_MIN, INT_MAX in *; lia).
    pose proof (convert_row_spec row ((h - 1 - k) * w) (Z.to_nat w) 0 cells)
      as Hconv.
    rewrite Z2Nat.id in Hconv by lia.
    destruct Hconv as (cells1 & -> & Hl1 & Hin1 & Hout1); [lia..|].
    specialize (IH (Z.succ k) cells1 ltac:(lia) ltac:(lia) ltac:(lia)).
    replace (off + Z.succ k * n) with (off + k * n + n) in IH by lia.
    destruct (read_rows content w h n (seqZ (Z.succ k) (Z.of_nat m))
                (off + k * n + n) cells1) as [| |cells'].
    + done.
    + destruct IH as (y & Hy & Hmiss). exists y. split; [lia|done].
    + destruct IH as (Hl & Hfull & Hin & Hout).
      split_and!.
      * congruence.
      * intros y Hy. destruct (Z.eq_dec y k) as [->|Hne].
        -- intros Hmiss. exact (proj2 Hshort Hmiss eq_refl).
        -- apply Hfull. lia.
      * intros y x Hy Hx. destruct (Z.eq_dec y k) as [->|Hne].
        -- rewrite Hout by nia.
           rewrite Hin1 by lia.
           rewrite Hlum by lia. do 3 f_equal; lia.
        -- apply Hin; lia.
      * intros i Hi. rewrite Hout by nia. apply Hout1. nia.
Qed.

(** Without bounds on the dimensions: when the loop returns, it has stopped
    at a row the file does not hold, or found every row. *)
Lemma read_rows_outcome (content : list byte) (w h n off : Z) (m : nat) :
  0 <= off →
  ∀ (k : Z) (cells : list cell),
    0 <= k →
    match read_rows content w h n (seqZ k (Z.of_nat m))
            (off + k * to_size_t n) cells with
    | RowsUndefined => True
    | RowsShort =>
        ∃ y, k <= y < k + Z.of_nat m ∧ row_missing content off (to_size_t n) y
    | RowsDone _ =>
        ∀ y, k <= y < k + Z.of_nat m → ¬ row_missing content off (to_size_t n) y
    end.
Proof.
  intros Hoff. pose proof (to_size_t_range n) as Hn.
  induction m as [|m IH]; intros k cells Hk.
  - rewrite seqZ_nil by lia. simpl. lia.
  - rewrite seqZ_cons by lia. rewrite read_rows_cons.
    replace (Z.pred (Z.of_nat (S m))) with (Z.of_nat m) by lia.
    pose proof (fread_bytes_short content (off + k * to_size_t n) off
                  (to_size_t n) k Hoff ltac:(lia) Hk eq_refl) as Hshort.
    destruct (fread content (off + k * to_size_t n) 1 (to_size_t n))
      as [row got].
    simpl in Hshort.
    destruct (Z.eqb_spec got (to_size_t n)) as [Hgot|Hgot]; simpl.
    2:{ exists k. split; [lia|]. by apply Hshort. }
    destruct (convert_row _ _ _ _) as [cells1|]; [|done].
    specialize (IH (Z.succ k) cells1 ltac:(lia)).
    replace (off + Z.succ k * to_size_t n)
      with (off + k * to_size_t n + to_size_t n) in IH by lia.
    destruct (read_rows _ _ _ _ _ _ _) as [| |cells'].
    + done.
    + destruct IH as (y & Hy & Hmiss). exists y. split; [lia|done].
    + intros y Hy. destruct (Z.eq_dec y k) as [->|Hne].
      * intros Hmiss. exact (proj2 Hshort Hmiss Hgot).
      * apply IH. lia.
Qed.

(** ** The header checks *)

Lemma fread_item (content : list byte) (pos size : Z) :
  0 <= pos → 0 < size →
  fread content pos size 1 =
    (take (Z.to_nat size) (drop (Z.to_nat pos) content),
     if pos + size <=? Z.of_nat (length content) then 1 else 0).
Proof.
  intros Hpos Hsize. unfold fread. rewrite Z.mul_1_r. f_equal.
  destruct (Z.eqb_spec size 0); [lia|].
  rewrite length_take, length_drop.
  destruct (Z.leb_spec (pos + size) (Z.of_nat (length content))).
  - replace (Z.of_nat (_ `min` _)) with size by lia. apply Z.div_same. lia.
  - apply Z.div_small. lia.
Qed.

(** [load_bmp] on a file that opens: the checks in the order of the source. *)
Lemma load_bmp_opened fs malloc_ok filename s content :
  fs filename = Some content →
  load_bmp fs malloc_ok filename s =
    let s' := with_fopen filename Opened s in
    if Z.of_nat (length content) <? 14 then
      Some (-1, fclose (fprintf (NoFileHeader filename) s'))
    else if negb (type (file_header_of content) =? 0x4D42) then
      Some (-1, fclose (fprintf (BadMagic filename) s'))
    else if Z.of_nat (length content) <? 54 then
      Some (-1, fclose (fprintf (NoInfoHeader filename) s'))
    else if negb (bitDepth (info_header_of content) =? 24) then
      Some (-1, fclose (fprintf
        (UnsupportedDepth filename (bitDepth (info_header_of content))) s'))
    else if negb (compression (info_header_of content) =? 0) then
      Some (-1, fclose (fprintf (UnsupportedCompression filename) s'))
    else
      load_pixels malloc_ok filename content (file_header_of content)
        (info_header_of content) s'.
Proof.
  intros Hfs. unfold load_bmp. rewrite Hfs.
  rewrite !fread_item by lia.
  change (Z.to_nat 0) with 0%nat. rewrite drop_0.
  change (Z.to_nat 14) with 14%nat. change (Z.to_nat 40) with 40%nat.
  fold (file_header_of content). fold (info_header_of content).
  cbv zeta.
  destruct (Z.ltb_spec (Z.of_nat (length content)) 14),
    (Z.leb_spec (0 + 14) (Z.of_nat (length content))); try lia; [done|].
  simpl negb at 1. cbv iota.
  destruct (negb (type (file_header_of content) =? 19778)); [done|].
  destruct (Z.ltb_spec (Z.of_nat (length content)) 54),
    (Z.leb_spec (14 + 40) (Z.of_nat (length content))); try lia; done.
Qed.

Lemma load_bmp_accepted fs malloc_ok filename s content :
  fs filename = Some content → accepted content →
  load_bmp fs malloc_ok filename s =
    load_pixels malloc_ok filename content (file_header_of content)
      (info_header_of content) (with_fopen filename Opened s).
Proof.
  intros Hfs (Hlen & Hty & Hbd & Hc).
  rewrite (load_bmp_opened _ _ _ _ _ Hfs). cbv zeta.
  rewrite Hty, Hbd, Hc. simpl.
  destruct (Z.ltb_spec (Z.of_nat (length content)) 14); [lia|].
  destruct (Z.ltb_spec (Z.of_nat (length content)) 54); [lia|done].
Qed.

(** ** [load_bmp] on accepted headers *)

Arguments wrap32 : simpl never.
Arguments to_size_t : simpl never.
Arguments row_padded_of : simpl never.
Arguments height_of : simpl never.
Arguments read_rows : simpl never.
Arguments file_header_of : simpl never.
Arguments info_header_of : simpl never.

Lemma pixel_offset_nonneg (content : list byte) : 0 <= pixel_offset content.
Proof. apply uint32_at_range. Qed.

Lemma declared_height_range (content : list byte) :
  INT_MIN <= declared_height content <= INT_MAX.
Proof. apply int32_at_range. Qed.

Lemma declared_width_range (content : list byte) :
  INT_MIN <= declared_width content <= INT_MAX.
Proof. apply int32_at_range. Qed.

(** A load with dimensions in range, both allocations granted and every row
    in the file: the run is defined, succeeds, and row [y] of the file is row
    [h - 1 - y] of the plane. *)
Lemma load_pixels_complete malloc_ok filename content fh ih s :
  let w := width ih in
  let h := height_of ih in
  let n := row_padded_of (width ih) in
  0 <= offset fh →
  in_range w h →
  malloc_ok (length (malloc_calls s)) (w * h) = true →
  malloc_ok (S (length (malloc_calls s))) n = true →
  (0 < n → offset fh + h * n <= Z.of_nat (length content)) →
  ∃ st cells,
    load_pixels malloc_ok filename content fh ih s = Some (0, st)
    ∧ stderr st = stderr s
    ∧ file st = Closed ∧ bgr_row_buffer st = Released
    ∧ out_width st = Some w ∧ out_height st = Some h
    ∧ image_data st = PlanePtr ∧ plane st = Allocated cells
    ∧ Z.of_nat (length cells) = w * h
    ∧ ∀ y x, 0 <= y < h → 0 <= x < w →
        cells !! Z.to_nat ((h - 1 - y) * w + x) =
          Some (Some (stored_luminance content (offset fh + y * n + x * 3))).
Proof.
  intros w h n.
  assert (width ih = w) as Hweq by reflexivity.
  assert (height_of ih = h) as Hheq by reflexivity.
  assert (row_padded_of w = n) as Hneq by reflexivity.
  clearbody n h w. intros Hoff Hrange Hm1 Hm2 Hfile.
  pose proof Hrange as (Hw & Hh & Hw3 & Hwh).
  destruct (row_padded_of_bounds w Hw Hw3) as [Hn _]. rewrite Hneq in Hn.
  assert (0 <= w * h) as Hwh0 by nia.
  unfold load_pixels, malloc. simpl. rewrite Hweq, Hheq, Hneq.
  rewrite wrap32_id by (unfold INT_MIN, INT_MAX in *; lia).
  rewrite !to_size_t_id by (unfold INT_MAX in *; lia).
  rewrite length_app. simpl. rewrite Hm1. simpl.
  replace (length (malloc_calls s) + 1)%nat with (S (length (malloc_calls s)))
    by lia.
  rewrite Hm2. simpl.
  pose proof (read_rows_spec content w h (offset fh) (Z.to_nat h)
    Hrange Hoff 0
    (replicate (Z.to_nat (w * h)) None) ltac:(lia) ltac:(lia)
    ltac:(rewrite length_replicate; lia)) as Hrows.
  rewrite Z2Nat.id, Z.mul_0_l, Z.add_0_r, Hneq in Hrows by lia.
  destruct (read_rows _ _ _ _ _ _ _) as [| |cells'].
  - done.
  - destruct Hrows as (y & Hy & Hpos & Hmiss).
    specialize (Hfile Hpos). nia.
  - destruct Hrows as (Hlen & _ & Hin & _).
    eexists _, cells'. split; [done|]. simpl.
    split_and!; try done.
    rewrite Hlen, length_replicate. lia.
Qed.

Lemma seqZ_to_nat (h : Z) : seqZ 0 h = seqZ 0 (Z.of_nat (Z.to_nat h)).
Proof.
  destruct (Z.le_gt_cases 0 h).
  - by rewrite Z2Nat.id.
  - rewrite !seqZ_nil; [done|lia..].
Qed.

(** Every way [load_pixels] returns, with the state it leaves. *)
Lemma load_pixels_inv malloc_ok filename content fh ih s r st :
  load_pixels malloc_ok filename content fh ih s = Some (r, st) →
  out_width st = Some (width ih)
  ∧ out_height st = Some (height_of ih)
  ∧ fopen_calls st = fopen_calls s
  ∧ file st = Closed
  ∧ ∃ calls, malloc_calls st =
      malloc_calls s ++ to_size_t (wrap32 (width ih * height_of ih)) :: calls
  ∧ ((malloc_ok (length (malloc_calls s))
        (to_size_t (wrap32 (width ih * height_of ih))) = false
      ∧ r = -1 ∧ stderr st = stderr s ++ [NoImageMemory]
      ∧ image_data st = Null ∧ plane st = plane s)
     ∨ (malloc_ok (length (malloc_calls s))
          (to_size_t (wrap32 (width ih * height_of ih))) = true
        ∧ malloc_ok (S (length (malloc_calls s)))
            (to_size_t (row_padded_of (width ih))) = false
        ∧ r = -1 ∧ stderr st = stderr s ++ [NoRowMemory]
        ∧ image_data st = PlanePtr ∧ plane st = Freed)
     ∨ (malloc_ok (length (malloc_calls s))
          (to_size_t (wrap32 (width ih * height_of ih))) = true
        ∧ malloc_ok (S (length (malloc_calls s)))
            (to_size_t (row_padded_of (width ih))) = true
        ∧ read_rows content (width ih) (height_of ih)
            (row_padded_of (width ih)) (seqZ 0 (height_of ih)) (offset fh)
            (replicate (Z.to_nat (to_size_t
               (wrap32 (width ih * height_of ih)))) None) = RowsShort
        ∧ r = -1 ∧ stderr st = stderr s ++ [TruncatedPixels filename]
        ∧ image_data st = PlanePtr ∧ plane st = Freed
        ∧ bgr_row_buffer st = Released)
     ∨ (malloc_ok (length (malloc_calls s))
          (to_size_t (wrap32 (width ih * height_of ih))) = true
        ∧ malloc_ok (S (length (malloc_calls s)))
            (to_size_t (row_padded_of (width ih))) = true
        ∧ ∃ cells,
            read_rows content (width ih) (height_of ih)
              (row_padded_of (width ih)) (seqZ 0 (height_of ih)) (offset fh)
              (replicate (Z.to_nat (to_size_t
                 (wrap32 (width ih * height_of ih)))) None) = RowsDone cells
            ∧ r = 0 ∧ stderr st = stderr s
            ∧ image_data st = PlanePtr ∧ plane st = Allocated cells
            ∧ Z.of_nat (length cells) =
                to_size_t (wrap32 (width ih * height_of ih))
            ∧ bgr_row_buffer st = Released)).
Proof.
  unfold load_pixels, malloc. simpl.
  rewrite length_app. simpl.
  replace (length (malloc_calls s) + 1)%nat with (S (length (malloc_calls s)))
    by lia.
  destruct (malloc_ok (length (malloc_calls s)) _) eqn:Hm1; simpl.
  2:{ intros ?; simplify_eq. simpl. split_and!; try done.
      eexists. split; [done|]. left. done. }
  destruct (malloc_ok (S (length (malloc_calls s))) _) eqn:Hm2; simpl.
  2:{ intros ?; simplify_eq. simpl. split_and!; try done.
      eexists. split; [by rewrite <- app_assoc|]. right; left. done. }
  destruct (read_rows _ _ _ _ _ _ _) as [| |cells] eqn:Hrows; [done| |].
  - intros ?; simplify_eq. simpl. split_and!; try done.
    eexists. split; [by rewrite <- app_assoc|]. right; right; left. done.
  - intros ?; simplify_eq. simpl. split_and!; try done.
    eexists. split; [by rewrite <- app_assoc|]. right; right; right.
    split_and!; try done. exists cells. split_and!; try done.
    rewrite (read_rows_length _ _ _ _ _ _ _ _ Hrows), length_replicate.
    pose proof (to_size_t_range (wrap32 (width ih * height_of ih))). lia.
Qed.

(** For dimensions in range, a file that ends before one of its rows makes
    the loop stop there. *)
Lemma read_rows_short (content : list byte) (w h off : Z) :
  in_range w h → 0 <= off →
  (∃ y, 0 <= y < h ∧ row_missing content off (row_padded_of w) y) →
  read_rows content w h (row_padded_of w) (seqZ 0 h) off
    (replicate (Z.to_nat (w * h)) None) = RowsShort.
Proof.
  intros Hrange Hoff (y & Hy & Hmiss).
  pose proof Hrange as (Hw & Hh & _ & _).
  pose proof (read_rows_spec content w h off (Z.to_nat h) Hrange Hoff 0
    (replicate (Z.to_nat (w * h)) None) ltac:(lia) ltac:(lia)
    ltac:(rewrite length_replicate; nia)) as Hrows.
  rewrite Z2Nat.id, Z.mul_0_l, Z.add_0_r in Hrows by lia.
  destruct (read_rows _ _ _ _ _ _ _) as [| |cells']; [done|done|].
  destruct Hrows as (_ & Hfull & _). destruct (Hfull y); [lia|done].
Qed.

Lemma read_rows_from_offset content w h n off cells :
  0 <= off →
  match read_rows content w h n (seqZ 0 h) off cells with
  | RowsUndefined => True
  | RowsShort => ∃ y, 0 <= y < h ∧ row_missing content off (to_size_t n) y
  | RowsDone _ => ∀ y, 0 <= y < h → ¬ row_missing content off (to_size_t n) y
  end.
Proof.
  intros Hoff.
  pose proof (read_rows_outcome content w h n off (Z.to_nat h) Hoff 0 cells
                ltac:(lia)) as H.
  rewrite Z.mul_0_l, Z.add_0_r, <- seqZ_to_nat in H.
  destruct (read_rows _ _ _ _ _ _ _).
  - done.
  - destruct H as (y & Hy & Hmiss). exists y. split; [lia|done].
  - intros y Hy. apply H. lia.
Qed.

(** Every way [load_bmp] returns on a file that opens. *)
Lemma load_bmp_inv fs malloc_ok filename s content r st :
  fs filename = Some content →
  load_bmp fs malloc_ok filename s = Some (r, st) →
  (¬ accepted content ∧ r = -1
   ∧ ∃ d, st = fclose (fprintf d (with_fopen filename Opened s)))
  ∨ (accepted content
     ∧ load_pixels malloc_ok filename content (file_header_of content)
         (info_header_of content) (with_fopen filename Opened s) = Some (r, st)).
Proof.
  intros Hfs. rewrite (load_bmp_opened _ _ _ _ _ Hfs). cbv zeta.
  unfold accepted.
  destruct (Z.ltb_spec (Z.of_nat (length content)) 14).
  { intros ?; simplify_eq. left. split_and!; [lia|done|by eexists]. }
  destruct (Z.eqb_spec (type (file_header_of content)) 19778); cbn [negb].
  2:{ intros ?; simplify_eq. left. split_and!; [intros (?&?&?&?); congruence|done|by eexists]. }
  destruct (Z.ltb_spec (Z.of_nat (length content)) 54).
  { intros ?; simplify_eq. left. split_and!; [lia|done|by eexists]. }
  destruct (Z.eqb_spec (bitDepth (info_header_of content)) 24); cbn [negb].
  2:{ intros ?; simplify_eq. left. split_and!; [intros (?&?&?&?); congruence|done|by eexists]. }
  destruct (Z.eqb_spec (compression (info_header_of content)) 0); cbn [negb].
  2:{ intros ?; simplify_eq. left. split_and!; [intros (?&?&?&?); congruence|done|by eexists]. }
  intros Hload. right. done.
Qed.

(** For dimensions in range and both allocations granted, a file that ends
    before one of its rows: the run is defined and fails, both blocks are
    freed and the file is closed. *)
Lemma load_pixels_truncated malloc_ok filename content fh ih s :
  0 <= offset fh →
  in_range (width ih) (height_of ih) →
  malloc_ok (length (malloc_calls s)) (width ih * height_of ih) = true →
  malloc_ok (S (length (malloc_calls s))) (row_padded_of (width ih)) = true →
  (∃ y, 0 <= y < height_of ih
        ∧ row_missing content (offset fh) (row_padded_of (width ih)) y) →
  ∃ st,
    load_pixels malloc_ok filename content fh ih s = Some (-1, st)
    ∧ stderr st = stderr s ++ [TruncatedPixels filename]
    ∧ out_width st = Some (width ih) ∧ out_height st = Some (height_of ih)
    ∧ image_data st = PlanePtr ∧ plane st = Freed
    ∧ bgr_row_buffer st = Released ∧ file st = Closed.
Proof.
  intros Hoff Hrange Hm1 Hm2 Hmiss.
  pose proof Hrange as (Hw & Hh & Hw3 & Hwh).
  destruct (row_padded_of_bounds _ Hw Hw3) as [Hn _].
  assert (0 <= width ih * height_of ih) as Hwh0 by nia.
  unfold load_pixels, malloc. simpl.
  rewrite wrap32_id by (unfold INT_MIN, INT_MAX in *; lia).
  rewrite !to_size_t_id by (unfold INT_MAX in *; lia).
  rewrite length_app. simpl. rewrite Hm1. simpl.
  replace (length (malloc_calls s) + 1)%nat with (S (length (malloc_calls s)))
    by lia.
  rewrite Hm2. simpl.
  rewrite (read_rows_short content _ _ _ Hrange Hoff Hmiss).
  eexists. split; [done|]. simpl. done.
Qed.

(** The row buffer is refused: the run fails after the plane was allocated
    and freed again. *)
Lemma load_pixels_no_row_memory malloc_ok filename content fh ih s :
  malloc_ok (length (malloc_calls s))
    (to_size_t (wrap32 (width ih * height_of ih))) = true →
  malloc_ok (S (length (malloc_calls s)))
    (to_size_t (row_padded_of (width ih))) = false →
  ∃ st,
    load_pixels malloc_ok filename content fh ih s = Some (-1, st)
    ∧ stderr st = stderr s ++ [NoRowMemory]
    ∧ out_width st = Some (width ih) ∧ out_height st = Some (height_of ih)
    ∧ image_data st = PlanePtr ∧ plane st = Freed
    ∧ file st = Closed.
Proof.
  intros Hm1 Hm2. unfold load_pixels, malloc. simpl.
  rewrite length_app. simpl. rewrite Hm1. simpl.
  replace (length (malloc_calls s) + 1)%nat with (S (length (malloc_calls s)))
    by lia.
  rewrite Hm2. simpl.
  eexists. split; [done|]. simpl. done.
Qed.

(** ** Files that load alike *)

Lemma wrap32_le (z : Z) : 0 <= z → wrap32 z <= z.
Proof.
  intros Hz. unfold wrap32.
  pose proof (Z.mod_le (z + 2 ^ 31) (2 ^ 32) ltac:(lia) ltac:(lia)). lia.
Qed.

Lemma load_byte_fread (content : list byte) (pos n i : Z) :
  0 <= pos → 0 <= n →
  load_byte (fst (fread content pos 1 n)) i =
    if (0 <=? i) && (i <? n) then content !! Z.to_nat (pos + i) else None.
Proof.
  intros Hpos Hn. rewrite fread_bytes. simpl. unfold load_byte.
  destruct (Z.ltb_spec i 0), (Z.leb_spec 0 i); try lia; [done|]. simpl.
  destruct (Z.ltb_spec i n).
  - rewrite lookup_take_lt by lia. rewrite lookup_drop. f_equal. lia.
  - apply lookup_take_ge. lia.
Qed.

Lemma convert_row_ext (row1 row2 : list byte) (p w : Z) (xs : list Z) :
  (∀ x k, x ∈ xs → 0 <= k <= 2 →
     load_byte row1 (wrap32 (x * 3 + k)) = load_byte row2 (wrap32 (x * 3 + k))) →
  ∀ cells, convert_row row1 p xs cells = convert_row row2 p xs cells.
Proof.
  induction xs as [|x xs IH]; intros Hbytes cells; [done|].
  simpl. unfold convert_pixel.
  rewrite (Hbytes x 0), (Hbytes x 1), (Hbytes x 2)
    by (first [apply list_elem_of_here | lia]).
  destruct (load_byte row2 (wrap32 (x * 3 + 0))) as [b|]; [|done].
  destruct (load_byte row2 (wrap32 (x * 3 + 1))) as [g|]; [|done].
  destruct (load_byte row2 (wrap32 (x * 3 + 2))) as [r|]; [|done].
  simpl. destruct (luma r g b) as [v|]; [|done]. simpl.
  destruct (store_byte cells (p + x) v) as [cells'|]; [|done]. simpl.
  apply IH. intros x' k Hx' Hk. apply Hbytes; [|done].
  by apply list_elem_of_further.
Qed.

(** Two files of the same length whose rows agree on their first [3 w]
    bytes go through the loop alike. *)
Lemma read_rows_ext (c1 c2 : list byte) (w h n off : Z) (m : nat) :
  length c1 = length c2 → 0 <= off →
  (∀ y i, 0 <= y < h → 0 <= i < 3 * w →
     c1 !! Z.to_nat (off + y * to_size_t n + i) =
     c2 !! Z.to_nat (off + y * to_size_t n + i)) →
  ∀ (k : Z) (cells : list cell),
    0 <= k → k + Z.of_nat m <= h →
    read_rows c1 w h n (seqZ k (Z.of_nat m)) (off + k * to_size_t n) cells =
    read_rows c2 w h n (seqZ k (Z.of_nat m)) (off + k * to_size_t n) cells.
Proof.
  intros Hlen Hoff Hpix. pose proof (to_size_t_range n) as Hn.
  induction m as [|m IH]; intros k cells Hk Hkm.
  - by rewrite seqZ_nil by lia.
  - rewrite seqZ_cons by lia. rewrite !read_rows_cons.
    replace (Z.pred (Z.of_nat (S m))) with (Z.of_nat m) by lia.
    pose proof (load_byte_fread c1 (off + k * to_size_t n) (to_size_t n))
      as Hb1.
    pose proof (load_byte_fread c2 (off + k * to_size_t n) (to_size_t n))
      as Hb2.
    rewrite !fread_bytes in *. simpl in Hb1, Hb2.
    rewrite !length_take, !length_drop, Hlen.
    destruct (negb _); [done|].
    rewrite (convert_row_ext _
      (take (Z.to_nat (to_size_t n))
         (drop (Z.to_nat (off + k * to_size_t n)) c2))).
    + destruct (convert_row _ _ _ _) as [cells1|]; [|done].
      specialize (IH (Z.succ k) cells1 ltac:(lia) ltac:(lia)).
      replace (off + Z.succ k * to_size_t n)
        with (off + k * to_size_t n + to_size_t n) in IH by lia.
      exact IH.
    + exact w.
    + intros x j Hx Hj. apply elem_of_seqZ in Hx.
      rewrite Hb1, Hb2 by lia.
      destruct (_ && _) eqn:Hin; [|done].
      apply andb_prop in Hin as [Hi0%Z.leb_le Hi1%Z.ltb_lt].
      pose proof (wrap32_le (x * 3 + j) ltac:(lia)).
      apply Hpix; lia.
Qed.

(** Two files of the same length that agree on the header fields [load_bmp]
    reads, on the magnitude of the height and on the pixel bytes of every
    row load alike. *)
Lemma load_bmp_ext fs1 fs2 malloc_ok filename s c1 c2 :
  fs1 filename = Some c1 →
  fs2 filename = Some c2 →
  length c1 = length c2 →
  type (file_header_of c2) = type (file_header_of c1) →
  offset (file_header_of c2) = offset (file_header_of c1) →
  width (info_header_of c2) = width (info_header_of c1) →
  height_of (info_header_of c2) = height_of (info_header_of c1) →
  bitDepth (info_header_of c2) = bitDepth (info_header_of c1) →
  compression (info_header_of c2) = compression (info_header_of c1) →
  (∀ y i, 0 <= y < returned_height c1 → 0 <= i < 3 * declared_width c1 →
     c1 !! Z.to_nat (pixel_offset c1 + y * row_bytes c1 + i) =
     c2 !! Z.to_nat (pixel_offset c1 + y * row_bytes c1 + i)) →
  load_bmp fs1 malloc_ok filename s = load_bmp fs2 malloc_ok filename s.
Proof.
  intros Hfs1 Hfs2 Hlen Hty Hoff Hw Hh Hbd Hc Hpix.
  rewrite (load_bmp_opened _ _ _ _ _ Hfs1), (load_bmp_opened _ _ _ _ _ Hfs2).
  cbv zeta. rewrite Hty, Hbd, Hc, <- Hlen.
  destruct (_ <? 14); [done|]. destruct (negb _); [done|].
  destruct (_ <? 54); [done|]. destruct (negb _); [done|].
  destruct (negb _); [done|].
  unfold load_pixels. rewrite Hw, Hh, Hoff.
  unfold returned_height, declared_width, pixel_offset, row_bytes, stride
    in Hpix.
  pose proof (read_rows_ext c1 c2 (width (info_header_of c1))
    (height_of (info_header_of c1))
    (row_padded_of (width (info_header_of c1)))
    (offset (file_header_of c1))
    (Z.to_nat (height_of (info_header_of c1))) Hlen
    (pixel_offset_nonneg c1) Hpix 0) as Hrows.
  cbv zeta.
  destruct (malloc _ _ _) as [ok1 s1].
  destruct (negb ok1); [done|].
  destruct (malloc _ _ _) as [ok2 s2].
  destruct (negb ok2); [done|].
  destruct (Z.le_gt_cases (height_of (info_header_of c1)) 0) as [Hle|Hgt].
  { by rewrite seqZ_nil. }
  rewrite seqZ_to_nat.
  specialize (Hrows (replicate (Z.to_nat (to_size_t (wrap32
    (width (info_header_of c1) * height_of (info_header_of c1))))) None)
    ltac:(lia) ltac:(lia)).
  rewrite Z.mul_0_l, Z.add_0_r in Hrows. by rewrite Hrows.
Qed.


(** The header fields as functions of the bytes of the file. *)
Lemma byte_at_take (content : list byte) (n i : nat) :
  (i < n)%nat → byte_at (take n content) i = u8 (default x00 (content !! i)).
Proof.
  intros Hi. unfold byte_at. by rewrite nth_lookup, lookup_take_lt.
Qed.

Lemma byte_at_take_drop (content : list byte) (k n i : nat) :
  (i < n)%nat →
  byte_at (take n (drop k content)) i = u8 (default x00 (content !! (k + i)%nat)).
Proof.
  intros Hi. unfold byte_at.
  by rewrite nth_lookup, lookup_take_lt, lookup_drop.
Qed.

Lemma height_of_opp (ih1 ih2 : BMPInfoHeader) :
  INT_MIN <= height ih1 <= INT_MAX → INT_MIN <= height ih2 <= INT_MAX →
  height ih2 = - height ih1 → height_of ih2 = height_of ih1.
Proof.
  intros H1 H2 Hopp. unfold height_of. rewrite Hopp.
  destruct (Z.ltb_spec 0 (- height ih1)), (Z.ltb_spec 0 (height ih1));
    try lia.
  - rewrite wrap32_id; [done|lia].
  - rewrite wrap32_id; [lia|]. unfold INT_MIN, INT_MAX in *. lia.
  - by replace (height ih1) with 0 by lia.
Qed.

(** ** [main] *)

Lemma load_bmp_fopen_calls fs malloc_ok filename s r st :
  load_bmp fs malloc_ok filename s = Some (r, st) →
  fopen_calls st = fopen_calls s ++ [filename].
Proof.
  intros Hload. destruct (fs filename) as [content|] eqn:Hfs.
  - destruct (load_bmp_inv _ _ _ _ _ _ _ Hfs Hload)
      as [(_ & _ & d & ->)|(_ & Hpix)]; [done|].
    by destruct (load_pixels_inv _ _ _ _ _ _ _ _ Hpix) as (_ & _ & -> & _).
  - unfold load_bmp in Hload. rewrite Hfs in Hload. by simplify_eq.
Qed.

Lemma report_codes_fopen_calls qr w h image (codes : list Z) (s : state) :
  fopen_calls (foldl (report_code qr w h image) s codes) = fopen_calls s.
Proof.
  revert s. induction codes as [|i codes IH]; intros s; [done|].
  simpl. rewrite IH. unfold report_code.
  by destruct (quirc_decode qr w h image i).
Qed.

(** ** The scenarios of the specification *)

Lemma load_white_pixel :
  load_bmp (single_file white_pixel) malloc_always "qr.bmp" initial_state =
  Some (0,
    {| stderr := []; stdout := []; fopen_calls := ["qr.bmp"%string];
       malloc_calls := [1; 4]; file := Closed;
       out_width := Some 1; out_height := Some 1;
       image_data := PlanePtr; plane := Allocated [Some 255];
       bgr_row_buffer := Released |}).
Proof. vm_compute. reflexivity. Qed.

Lemma load_red_pixel :
  load_bmp (single_file red_pixel) malloc_always "qr.bmp" initial_state =
  Some (0,
    {| stderr := []; stdout := []; fopen_calls := ["qr.bmp"%string];
       malloc_calls := [1; 4]; file := Closed;
       out_width := Some 1; out_height := Some 1;
       image_data := PlanePtr; plane := Allocated [Some 76];
       bgr_row_buffer := Released |}).
Proof. vm_compute. reflexivity. Qed.

Lemma load_depth_8 :
  load_bmp (single_file depth_8) malloc_always "qr.bmp" initial_state =
  Some (-1,
    {| stderr := [UnsupportedDepth "qr.bmp" 8]; stdout := [];
       fopen_calls := ["qr.bmp"%string]; malloc_calls := []; file := Closed;
       out_width := None; out_height := None;
       image_data := Null; plane := Unallocated;
       bgr_row_buffer := NotAllocated |}).
Proof. vm_compute. reflexivity. Qed.

Lemma main_bad_magic :
  main (single_file bad_magic) malloc_always no_codes ["quirc"; "qr.bmp"]%string =
  Some (1,
    {| stderr := [BadMagic "qr.bmp"; FailedToLoad "qr.bmp"]; stdout := [];
       fopen_calls := ["qr.bmp"%string]; malloc_calls := []; file := Closed;
       out_width := None; out_height := None;
       image_data := Null; plane := Unallocated;
       bgr_row_buffer := NotAllocated |}).
Proof. vm_compute. reflexivity. Qed.

(** ** The luminance of the specification *)

Lemma Prim2SF_299 : Prim2SF 0.299 = binary64_of_thousandths 299.
Proof. vm_compute. reflexivity. Qed.

Lemma Prim2SF_587 : Prim2SF 0.587 = binary64_of_thousandths 587.
Proof. vm_compute. reflexivity. Qed.

Lemma Prim2SF_114 : Prim2SF 0.114 = binary64_of_thousandths 114.
Proof. vm_compute. reflexivity. Qed.

Lemma Prim2SF_double_of_u8 (b : byte) :
  Prim2SF (double_of_u8 b) = binary64_of_Z (u8 b).
Proof. destruct b; vm_compute; reflexivity. Qed.

(** The machine sum is the sum of the specification. *)
Lemma Prim2SF_luma_sum (r g b : byte) :
  Prim2SF (luma_sum r g b) = weighted_sum (u8 r) (u8 g) (u8 b).
Proof.
  unfold luma_sum, weighted_sum.
  rewrite !add_spec, !mul_spec, !Prim2SF_double_of_u8.
  by rewrite Prim2SF_299, Prim2SF_587, Prim2SF_114.
Qed.

(** The shift of [trunc_float] is the truncation of the specification. *)
Lemma trunc_float_truncate (f : float) : trunc_float f = truncate (Prim2SF f).
Proof.
  unfold trunc_float, truncate.
  destruct (Prim2SF f) as [| | |s m e]; try done. f_equal.
  destruct (Z.le_gt_cases 0 e) as [He|He].
  - rewrite Z.max_l, Z.max_r by lia. rewrite Z.shiftl_mul_pow2 by lia.
    change (2 ^ 0) with 1. by rewrite Z.quot_1_r.
  - rewrite Z.max_r, Z.max_l by lia. change (2 ^ 0) with 1.
    rewrite Z.mul_1_r.
    rewrite <- (Z.opp_involutive e) at 1.
    rewrite Z.shiftl_opp_r, Z.shiftr_div_pow2 by lia.
    assert (0 < 2 ^ (- e)) by (apply Z.pow_pos_nonneg; lia).
    destruct s; simpl cond_Zopp.
    + change (Z.neg m) with (- Z.pos m).
      rewrite Z.quot_opp_l by lia. f_equal.
      symmetry. apply Z.quot_div_nonneg; lia.
    + symmetry. apply Z.quot_div_nonneg; lia.
Qed.

Lemma luma_spec_luminance (r g b : byte) :
  spec_luminance (u8 r) (u8 g) (u8 b) = Some (luminance r g b).
Proof.
  unfold spec_luminance.
  rewrite <- Prim2SF_luma_sum, <- trunc_float_truncate.
  destruct (in_byte_range_trunc _ (luma_sum_in_byte_range r g b))
    as (t & Ht & Hr).
  rewrite Ht. f_equal. symmetry.
  unfold luminance, luma, uint8_of_double. rewrite Ht. simpl.
  by rewrite bool_decide_eq_true_2.
Qed.

Lemma byte_of_scratch_row (content : list byte) (y i : Z) :
  0 <= pixel_offset content + y * stride content →
  0 <= i < stride content →
  byte_of (scratch_row content y) i =
    byte_of content (pixel_offset content + y * stride content + i).
Proof. intros Hpos Hi. unfold scratch_row. by apply byte_of_fread. Qed.

(** ** The error conditions *)

Lemma not_accepted_iff (content : list byte) :
  ¬ accepted content ↔ truncated_header content ∨ validation_fails content.
Proof.
  unfold accepted, truncated_header, validation_fails. split.
  - intros Hrej.
    destruct (Z.lt_ge_cases (Z.of_nat (length content)) 54) as [?|Hlen];
      [by left|right].
    destruct (decide (type (file_header_of content) = 19778)) as [Hty|Hty];
      [|left; split; [lia|done]].
    right. split; [lia|].
    destruct (decide (bitDepth (info_header_of content) = 24)) as [Hbd|Hbd];
      [|by left].
    right. intros Hc. apply Hrej. done.
  - intros [Hlen|[[_ Hty]|[_ [Hbd|Hc]]]] (? & ? & ? & ?); try done. lia.
Qed.

(** ** The plane of a complete file *)

Lemma load_plane_spec fs malloc_ok filename s content :
  fs filename = Some content →
  accepted content →
  in_range (declared_width content) (returned_height content) →
  malloc_ok (length (malloc_calls s))
    (declared_width content * returned_height content) = true →
  malloc_ok (S (length (malloc_calls s))) (stride content) = true →
  pixel_offset content + returned_height content * stride content
    <= Z.of_nat (length content) →
  ∃ st cells,
    load_bmp fs malloc_ok filename s = Some (0, st)
    ∧ out_width st = Some (declared_width content)
    ∧ out_height st = Some (returned_height content)
    ∧ image_data st = PlanePtr
    ∧ plane st = Allocated cells
    ∧ Z.of_nat (length cells) =
        declared_width content * returned_height content
    ∧ ∀ y x,
        0 <= y < returned_height content → 0 <= x < declared_width content →
        ∃ t,
          cells !! Z.to_nat ((returned_height content - 1 - y)
                             * declared_width content + x) = Some (Some t)
          ∧ spec_luminance
              (u8 (byte_of content
                     (pixel_offset content + y * stride content + x * 3 + 2)))
              (u8 (byte_of content
                     (pixel_offset content + y * stride content + x * 3 + 1)))
              (u8 (byte_of content
                     (pixel_offset content + y * stride content + x * 3)))
            = Some t
          ∧ 0 <= t <= 255.
Proof.
  unfold declared_width, returned_height, stride, pixel_offset.
  intros Hfs Hacc Hrange Hm1 Hm2 Hfile.
  rewrite (load_bmp_accepted _ _ _ _ _ Hfs Hacc).
  destruct (load_pixels_complete malloc_ok filename content
              (file_header_of content) (info_header_of content)
              (with_fopen filename Opened s)
              (pixel_offset_nonneg content) Hrange Hm1 Hm2
              (fun _ => Hfile))
    as (st & cells & Hload & _ & _ & _ & Hw & Hh & Hptr & Hpl & Hlen & Hcells).
  exists st, cells. split_and!; try done.
  intros y x Hy Hx. eexists. split; [exact (Hcells y x Hy Hx)|]. split.
  - unfold stored_luminance. apply luma_spec_luminance.
  - apply luminance_range.
Qed.

(** * The claims *)

(** C1, refuted as stated. The same 2x2 image stored bottom-up (height 2)
    and top-down (height -2) does not load to the same plane: the top-down
    file comes out with its rows exchanged, its file row 0 (white,black) in
    plane row 1. *)
Lemma top_down_plane_is_flipped :
  ∃ s1 s2,
    load_bmp (single_file checkerboard_bottom_up) malloc_always "qr.bmp"
      initial_state = Some (0, s1)
    ∧ load_bmp (single_file checkerboard_top_down) malloc_always "qr.bmp"
        initial_state = Some (0, s2)
    ∧ plane s1 = Allocated [Some 255; Some 0; Some 0; Some 255]
    ∧ plane s2 = Allocated [Some 0; Some 255; Some 255; Some 0]
    ∧ plane s1 ≠ plane s2.
Proof.
  eexists _, _.
  split; [vm_compute; reflexivity|]. split; [vm_compute; reflexivity|].
  simpl. split_and!; done.
Qed.

(** C1 (amended). [load_bmp] keeps the magnitude [H] of the stored height
    and nothing else of it. Two files that differ in the height field only,
    one holding the opposite of the other, load alike (the same return value,
    dimensions and plane). For a stored height of either sign, a load with
    dimensions in range, its allocations granted and [H] rows in the file
    succeeds, returns the width and [H], and has written the pixel [x] of
    file row [y] to cell [(H - 1 - y) * W + x] of the plane: the rows of a
    top-down file are reversed like those of a bottom-up file. *)
Theorem height_sign_ignored :
  (∀ fs1 fs2 malloc_ok filename s c1 c2,
     fs1 filename = Some c1 →
     fs2 filename = Some c2 →
     length c1 = length c2 →
     (∀ i : nat, ¬ (22 <= i < 26)%nat → c1 !! i = c2 !! i) →
     declared_height c2 = - declared_height c1 →
     26 <= pixel_offset c1 →
     load_bmp fs1 malloc_ok filename s = load_bmp fs2 malloc_ok filename s)
  ∧ (∀ fs malloc_ok filename s content,
       fs filename = Some content →
       accepted content →
       in_range (declared_width content) (Z.abs (declared_height content)) →
       malloc_ok (length (malloc_calls s))
         (declared_width content * Z.abs (declared_height content)) = true →
       malloc_ok (S (length (malloc_calls s))) (stride content) = true →
       pixel_offset content + Z.abs (declared_height content) * stride content
         <= Z.of_nat (length content) →
       ∃ st cells,
         load_bmp fs malloc_ok filename s = Some (0, st)
         ∧ out_width st = Some (declared_width content)
         ∧ out_height st = Some (Z.abs (declared_height content))
         ∧ plane st = Allocated cells
         ∧ Z.of_nat (length cells) =
             declared_width content * Z.abs (declared_height content)
         ∧ ∀ y x,
             0 <= y < Z.abs (declared_height content) →
             0 <= x < declared_width content →
             cells !! Z.to_nat ((Z.abs (declared_height content) - 1 - y)
                                * declared_width content + x) =
               Some (Some (stored_luminance content
                             (pixel_offset content + y * stride content
                              + x * 3)))).
Proof.
  split.
  - intros fs1 fs2 malloc_ok filename s c1 c2 Hfs1 Hfs2 Hlen Hbytes Hopp Hoff.
    apply (load_bmp_ext fs1 fs2 _ _ _ c1 c2); try done.
    + unfold file_header_of, read_file_header, uint16_at; cbn [type].
      rewrite !byte_at_take by lia. by rewrite !Hbytes by lia.
    + unfold file_header_of, read_file_header, uint32_at, uint16_at;
        cbn [offset].
      rewrite !byte_at_take by lia. by rewrite !Hbytes by lia.
    + unfold info_header_of, read_info_header, int32_at, uint32_at, uint16_at;
        cbn [width].
      rewrite !byte_at_take_drop by lia. by rewrite !Hbytes by lia.
    + apply height_of_opp; [apply declared_height_range..|done].
    + unfold info_header_of, read_info_header, uint16_at; cbn [bitDepth].
      rewrite !byte_at_take_drop by lia. by rewrite !Hbytes by lia.
    + unfold info_header_of, read_info_header, uint32_at, uint16_at;
        cbn [compression].
      rewrite !byte_at_take_drop by lia. by rewrite !Hbytes by lia.
    + intros y i Hy Hi. apply Hbytes.
      pose proof (to_size_t_range (stride c1)). unfold row_bytes. nia.
  - intros fs malloc_ok filename s content Hfs Hacc Hrange Hm1 Hm2 Hfile.
    rewrite (load_bmp_accepted _ _ _ _ _ Hfs Hacc).
    assert (height_of (info_header_of content)
            = Z.abs (declared_height content)) as Hh.
    { apply height_of_abs. destruct Hrange as (_ & Hh & _).
      pose proof (declared_height_range content).
      unfold declared_height, INT_MIN, INT_MAX in *. lia. }
    destruct (load_pixels_complete malloc_ok filename content
                (file_header_of content) (info_header_of content)
                (with_fopen filename Opened s))
      as (st & cells & Hload & _ & _ & _ & Hw & Hht & _ & Hpl & Hlen & Hcells).
    + apply pixel_offset_nonneg.
    + by rewrite Hh.
    + by rewrite Hh.
    + done.
    + intros _. by rewrite Hh.
    + rewrite Hh in *. exists st, cells. split_and!; done.
Qed.

Lemma height_sign_ignored_witness :
  load_bmp (single_file checkerboard_bottom_up) malloc_always "qr.bmp"
    initial_state =
  load_bmp (single_file checkerboard_negated_height) malloc_always "qr.bmp"
    initial_state
  ∧ ∃ st cells,
      load_bmp (single_file checkerboard_top_down) malloc_always "qr.bmp"
        initial_state = Some (0, st)
      ∧ plane st = Allocated cells
      ∧ cells !! 2%nat =
          Some (Some (stored_luminance checkerboard_top_down 54)).
Proof.
  destruct height_sign_ignored as [Hsign Hrows]. split.
  - apply (Hsign (single_file checkerboard_bottom_up)
             (single_file checkerboard_negated_height) malloc_always "qr.bmp"
             initial_state checkerboard_bottom_up checkerboard_negated_height).
    + reflexivity.
    + reflexivity.
    + reflexivity.
    + intros i Hi.
      destruct (decide (i < 22)%nat) as [Hlt|Hge].
      * do 22 (destruct i as [|i]; [reflexivity|]). lia.
      * do 26 (destruct i as [|i]; [lia|]). reflexivity.
    + reflexivity.
    + vm_compute. discriminate.
  - destruct (Hrows (single_file checkerboard_top_down)
                malloc_always "qr.bmp" initial_state checkerboard_top_down)
      as (st & cells & Hload & _ & _ & Hplane & _ & Hcells).
    + reflexivity.
    + vm_compute. repeat split; discriminate.
    + vm_compute. repeat split; discriminate.
    + reflexivity.
    + reflexivity.
    + vm_compute. discriminate.
    + exists st, cells. split; [exact Hload|]. split; [exact Hplane|].
      pose proof (Hcells 0 0) as Hcell.
      vm_compute in Hcell. vm_compute.
      apply Hcell; split; discriminate || reflexivity.
Defined.

(** C2, refuted as stated. Headers declaring a width of 0, or a height of 0,
    are not rejected: with an allocator that grants requests of zero bytes
    the load succeeds and returns the zero dimension. *)
Lemma zero_dimensions_accepted :
  (∃ st, load_bmp (single_file zero_width) malloc_always "qr.bmp"
           initial_state = Some (0, st)
         ∧ out_width st = Some 0 ∧ plane st = Allocated [])
  ∧ (∃ st, load_bmp (single_file zero_height) malloc_always "qr.bmp"
             initial_state = Some (0, st)
           ∧ out_height st = Some 0 ∧ plane st = Allocated []).
Proof.
  split; (eexists; split; [vm_compute; reflexivity|]); simpl; done.
Qed.

(** C2 (amended). [load_bmp] has no check on the declared width or height.
    For every successful load the headers were accepted, the returned width
    is the declared width and the returned height the magnitude of the
    declared height: the height is strictly positive when the declared
    height is neither 0 nor [INT_MIN], the width is whatever the header
    says. The plane has the length asked of [malloc], which is
    width x height when that product lies in [0, INT_MAX]. *)
Theorem successful_load_dimensions fs malloc_ok filename s content st :
  fs filename = Some content →
  load_bmp fs malloc_ok filename s = Some (0, st) →
  accepted content
  ∧ out_width st = Some (declared_width content)
  ∧ out_height st = Some (returned_height content)
  ∧ (declared_height content ≠ 0 → declared_height content ≠ INT_MIN →
       returned_height content = Z.abs (declared_height content)
       ∧ 0 < returned_height content)
  ∧ ∃ cells,
      image_data st = PlanePtr ∧ plane st = Allocated cells
      ∧ Z.of_nat (length cells) = plane_request content
      ∧ (0 <= declared_width content * returned_height content <= INT_MAX →
           Z.of_nat (length cells) =
             declared_width content * returned_height content).
Proof.
  intros Hfs Hload.
  destruct (load_bmp_inv _ _ _ _ _ _ _ Hfs Hload)
    as [(_ & ? & _)|(Hacc & Hpix)]; [done|].
  destruct (load_pixels_inv _ _ _ _ _ _ _ _ Hpix)
    as (Hw & Hh & _ & _ & _ & _ &
        [(_ & ? & _)|[(_ & _ & ? & _)|[(_ & _ & _ & ? & _)|
         (_ & _ & cells & _ & _ & _ & Hptr & Hpl & Hlen & _)]]]); try done.
  split_and!; try done.
  - intros H0 Hmin. pose proof (declared_height_range content).
    unfold returned_height, declared_height, INT_MIN, INT_MAX in *.
    rewrite height_of_abs by (unfold INT_MIN, INT_MAX; lia). lia.
  - exists cells. split_and!; try done.
    intros Hr. rewrite Hlen.
    unfold declared_width, returned_height in *.
    rewrite wrap32_id by (unfold INT_MIN, INT_MAX in *; lia).
    apply to_size_t_id. unfold INT_MAX in *. lia.
Qed.

Lemma successful_load_dimensions_witness :
  ∃ st,
    load_bmp (single_file checkerboard_bottom_up) malloc_always "qr.bmp"
      initial_state = Some (0, st)
    ∧ out_width st = Some 2 ∧ out_height st = Some 2.
Proof.
  eexists. split; [vm_compute; reflexivity|].
  destruct (successful_load_dimensions (single_file checkerboard_bottom_up)
              malloc_always "qr.bmp" initial_state checkerboard_bottom_up _
              eq_refl ltac:(vm_compute; reflexivity))
    as (_ & Hw & Hh & _).
  split; [exact Hw | exact Hh].
Defined.

(** C3. For every pixel with 8-bit channels R, G, B the conversion of
    line 131 is defined and gives the luminance of the specification: the
    binary64 sum [0.299 R + 0.587 G + 0.114 B] truncated toward zero, a
    value of [0, 255] that no reduction modulo 256 has touched. That byte is
    what a load writes to the plane: after a load with dimensions in range,
    its allocations granted and its rows in the file, the cell of pixel [x]
    of file row [y] holds the luminance of the specification for the red,
    green and blue stored at bytes 2, 1 and 0 of the pixel. *)
Theorem plane_byte_is_truncated_sum :
  (∀ r g b : byte,
     ∃ t, luma r g b = Some t
          ∧ spec_luminance (u8 r) (u8 g) (u8 b) = Some t
          ∧ 0 <= t <= 255)
  ∧ (∀ fs malloc_ok filename s content,
       fs filename = Some content →
       accepted content →
       in_range (declared_width content) (returned_height content) →
       malloc_ok (length (malloc_calls s))
         (declared_width content * returned_height content) = true →
       malloc_ok (S (length (malloc_calls s))) (stride content) = true →
       pixel_offset content + returned_height content * stride content
         <= Z.of_nat (length content) →
       ∃ st cells,
         load_bmp fs malloc_ok filename s = Some (0, st)
         ∧ plane st = Allocated cells
         ∧ ∀ y x,
             0 <= y < returned_height content →
             0 <= x < declared_width content →
             let p := pixel_offset content + y * stride content + x * 3 in
             ∃ t,
               cells !! Z.to_nat ((returned_height content - 1 - y)
                                  * declared_width content + x)
                 = Some (Some t)
               ∧ spec_luminance (u8 (byte_of content (p + 2)))
                   (u8 (byte_of content (p + 1))) (u8 (byte_of content p))
                 = Some t
               ∧ 0 <= t <= 255).
Proof.
  split.
  - intros r g b. exists (luminance r g b).
    split; [apply luma_luminance|]. split.
    + apply luma_spec_luminance.
    + apply luminance_range.
  - intros fs malloc_ok filename s content Hfs Hacc Hrange Hm1 Hm2 Hfile.
    destruct (load_plane_spec _ _ _ _ _ Hfs Hacc Hrange Hm1 Hm2 Hfile)
      as (st & cells & Hload & _ & _ & _ & Hpl & _ & Hcells).
    exists st, cells. split_and!; [done|done|].
    intros y x Hy Hx. cbv zeta. exact (Hcells y x Hy Hx).
Qed.

Lemma plane_byte_is_truncated_sum_witness :
  (∃ t, luma xff x00 x00 = Some t ∧ spec_luminance 255 0 0 = Some t
        ∧ 0 <= t <= 255)
  ∧ ∃ st cells,
      load_bmp (single_file colour_2x2) malloc_always "qr.bmp" initial_state
        = Some (0, st)
      ∧ plane st = Allocated cells
      ∧ cells !! 1%nat = Some (Some 18)
      ∧ spec_luminance 10 20 30 = Some 18.
Proof.
  destruct plane_byte_is_truncated_sum as [Hluma Hplane]. split.
  - exact (Hluma xff x00 x00).
  - destruct (Hplane (single_file colour_2x2) malloc_always "qr.bmp"
                initial_state colour_2x2)
      as (st & cells & Hload & Hpl & Hcells).
    + reflexivity.
    + vm_compute. repeat split; discriminate.
    + vm_compute. repeat split; discriminate.
    + reflexivity.
    + reflexivity.
    + vm_compute. discriminate.
    + exists st, cells. split; [exact Hload|]. split; [exact Hpl|].
      destruct (Hcells 1 1) as (t & Hcell & Hspec & _).
      * vm_compute. split; [intros [=]|reflexivity].
      * vm_compute. split; [intros [=]|reflexivity].
      * vm_compute in Hspec. injection Hspec as <-.
        split; [|vm_compute; reflexivity].
        vm_compute in Hcell. vm_compute. exact Hcell.
Defined.

(** C4. The 2x2 bottom-up checkerboard (rows in file order black,white and
    white,black, each padded to 4 bytes) loads with width 2, height 2 and the
    top-down plane 255, 0, 0, 255. For every bottom-up file (positive
    height, dimensions in range, allocations granted, rows in the file) the
    load returns the declared width and height, and file row [y] is plane
    row [H - 1 - y]: the cell [(H - 1 - y) * W + x] holds the luminance of
    the specification for the blue, green and red found at offsets [3 x],
    [3 x + 1] and [3 x + 2] of the row buffer. *)
Theorem bottom_up_rows_reversed :
  (∃ st,
     load_bmp (single_file checkerboard_bottom_up) malloc_always "qr.bmp"
       initial_state = Some (0, st)
     ∧ out_width st = Some 2 ∧ out_height st = Some 2
     ∧ image_data st = PlanePtr
     ∧ plane st = Allocated [Some 255; Some 0; Some 0; Some 255]
     ∧ file st = Closed ∧ bgr_row_buffer st = Released)
  ∧ (∀ fs malloc_ok filename s content,
       fs filename = Some content →
       accepted content →
       0 < declared_height content →
       in_range (declared_width content) (declared_height content) →
       malloc_ok (length (malloc_calls s))
         (declared_width content * declared_height content) = true →
       malloc_ok (S (length (malloc_calls s))) (stride content) = true →
       pixel_offset content + declared_height content * stride content
         <= Z.of_nat (length content) →
       ∃ st cells,
         load_bmp fs malloc_ok filename s = Some (0, st)
         ∧ out_width st = Some (declared_width content)
         ∧ out_height st = Some (declared_height content)
         ∧ image_data st = PlanePtr
         ∧ plane st = Allocated cells
         ∧ Z.of_nat (length cells) =
             declared_width content * declared_height content
         ∧ ∀ y x,
             0 <= y < declared_height content →
             0 <= x < declared_width content →
             ∃ t,
               cells !! Z.to_nat ((declared_height content - 1 - y)
                                  * declared_width content + x)
                 = Some (Some t)
               ∧ spec_luminance
                   (u8 (byte_of (scratch_row content y) (x * 3 + 2)))
                   (u8 (byte_of (scratch_row content y) (x * 3 + 1)))
                   (u8 (byte_of (scratch_row content y) (x * 3)))
                 = Some t).
Proof.
  split.
  { eexists. split; [vm_compute; reflexivity|]. simpl. done. }
  intros fs malloc_ok filename s content Hfs Hacc Hpos Hrange Hm1 Hm2 Hfile.
  assert (returned_height content = declared_height content) as Hh.
  { unfold returned_height, declared_height, height_of in *.
    by destruct (Z.ltb_spec 0 (height (info_header_of content))); [|lia]. }
  rewrite <- Hh in *.
  destruct (load_plane_spec _ _ _ _ _ Hfs Hacc Hrange Hm1 Hm2 Hfile)
    as (st & cells & Hload & Hw & Hht & Hptr & Hpl & Hlen & Hcells).
  exists st, cells. split_and!; try done.
  intros y x Hy Hx.
  destruct (Hcells y x Hy Hx) as (t & Hcell & Hspec & _).
  exists t. split; [done|].
  destruct Hrange as (Hw0 & _ & Hw3 & _).
  destruct (row_padded_of_bounds _ Hw0 Hw3) as [Hn0 Hn3].
  fold (stride content) in Hn0, Hn3.
  pose proof (pixel_offset_nonneg content) as Hoff.
  rewrite !byte_of_scratch_row by nia.
  by rewrite !Z.add_assoc.
Qed.

Lemma bottom_up_rows_reversed_witness :
  ∃ st cells,
    load_bmp (single_file colour_2x2) malloc_always "qr.bmp" initial_state
      = Some (0, st)
    ∧ plane st = Allocated cells
    ∧ cells !! 2%nat = Some (Some 76)
    ∧ cells !! 0%nat = Some (Some 29).
Proof.
  destruct bottom_up_rows_reversed as [_ Hrows].
  destruct (Hrows (single_file colour_2x2) malloc_always "qr.bmp"
              initial_state colour_2x2)
    as (st & cells & Hload & _ & _ & _ & Hpl & _ & Hcells).
  - reflexivity.
  - vm_compute. repeat split; discriminate.
  - reflexivity.
  - vm_compute. repeat split; discriminate.
  - reflexivity.
  - reflexivity.
  - vm_compute. discriminate.
  - exists st, cells. split; [exact Hload|]. split; [exact Hpl|]. split.
    + destruct (Hcells 0 0) as (t & Hcell & Hspec).
      * vm_compute. split; [intros [=]|reflexivity].
      * vm_compute. split; [intros [=]|reflexivity].
      * vm_compute in Hspec. injection Hspec as <-.
        vm_compute in Hcell. vm_compute. exact Hcell.
    + destruct (Hcells 1 0) as (t & Hcell & Hspec).
      * vm_compute. split; [intros [=]|reflexivity].
      * vm_compute. split; [intros [=]|reflexivity].
      * vm_compute in Hspec. injection Hspec as <-.
        vm_compute in Hcell. vm_compute. exact Hcell.
Defined.

(** C5, refuted as stated. Validation is not the only way a load fails: the
    10x10 file that ends after 5 rows has headers that pass every check
    (magic, bit depth 24, compression 0; its width and height are positive
    too), and its load returns -1 with the pixel-row diagnostic. So does the
    load of valid headers whose plane the allocator refuses. *)
Lemma valid_headers_load_fails :
  (¬ validation_fails truncated_10x10
   ∧ 0 < declared_width truncated_10x10
   ∧ 0 < declared_height truncated_10x10
   ∧ ∃ st,
       load_bmp (single_file truncated_10x10) malloc_always "qr.bmp"
         initial_state = Some (-1, st)
       ∧ stderr st = [TruncatedPixels "qr.bmp"]
       ∧ plane st = Freed)
  ∧ (¬ validation_fails headers_huge
     ∧ ∃ st,
         load_bmp (single_file headers_huge) malloc_small "qr.bmp"
           initial_state = Some (-1, st)
         ∧ stderr st = [NoImageMemory]
         ∧ plane st = Unallocated).
Proof.
  split; split.
  - intros [[_ H]|[_ [H|H]]]; apply H; vm_compute; reflexivity.
  - split; [reflexivity|]. split; [reflexivity|].
    eexists. split; [vm_compute; reflexivity|]. simpl. done.
  - intros [[_ H]|[_ [H|H]]]; apply H; vm_compute; reflexivity.
  - eexists. split; [vm_compute; reflexivity|]. simpl. done.
Qed.

(** C5 (amended). [load_bmp] returns -1 exactly when the file cannot be
    opened or one of the error conditions holds: a truncated header, a
    validation failure, a refused allocation, a missing pixel row; and then
    no plane is left allocated. A validation failure is sufficient, and it
    fails the load before any allocation. The header checks come in the
    order of the source, each after its header was read in full: a file
    shorter than the file header is reported as such whatever its first
    bytes; a magic other than 0x4D42, a bit depth other than 24 and a
    compression other than 0 each fail with their own diagnostic. *)
Theorem load_fails_iff_error_condition fs malloc_ok filename s :
  plane s = Unallocated →
  (fs filename = None →
     ∃ st, load_bmp fs malloc_ok filename s = Some (-1, st)
           ∧ stderr st = stderr s ++ [CannotOpen filename]
           ∧ plane st = Unallocated)
  ∧ ∀ content, fs filename = Some content →
      (Z.of_nat (length content) < 14 →
         load_bmp fs malloc_ok filename s =
           Some (-1, fclose (fprintf (NoFileHeader filename)
                               (with_fopen filename Opened s))))
      ∧ (14 <= Z.of_nat (length content) →
         type (file_header_of content) ≠ 0x4D42 →
         load_bmp fs malloc_ok filename s =
           Some (-1, fclose (fprintf (BadMagic filename)
                               (with_fopen filename Opened s))))
      ∧ (14 <= Z.of_nat (length content) < 54 →
         type (file_header_of content) = 0x4D42 →
         load_bmp fs malloc_ok filename s =
           Some (-1, fclose (fprintf (NoInfoHeader filename)
                               (with_fopen filename Opened s))))
      ∧ (54 <= Z.of_nat (length content) →
         type (file_header_of content) = 0x4D42 →
         bitDepth (info_header_of content) ≠ 24 →
         load_bmp fs malloc_ok filename s =
           Some (-1, fclose (fprintf
                   (UnsupportedDepth filename (bitDepth (info_header_of content)))
                   (with_fopen filename Opened s))))
      ∧ (54 <= Z.of_nat (length content) →
         type (file_header_of content) = 0x4D42 →
         bitDepth (info_header_of content) = 24 →
         compression (info_header_of content) ≠ 0 →
         load_bmp fs malloc_ok filename s =
           Some (-1, fclose (fprintf (UnsupportedCompression filename)
                               (with_fopen filename Opened s))))
      ∧ ∀ r st, load_bmp fs malloc_ok filename s = Some (r, st) →
          (r = -1 ↔
             truncated_header content
             ∨ validation_fails content
             ∨ allocation_fails malloc_ok (length (malloc_calls s)) content
             ∨ pixels_truncated content)
          ∧ (r ≠ -1 → r = 0)
          ∧ (validation_fails content →
               r = -1 ∧ plane st = Unallocated
               ∧ malloc_calls st = malloc_calls s)
          ∧ (r = -1 → plane st = Unallocated ∨ plane st = Freed).
Proof.
  intros Hplane. split.
  { intros Hfs. unfold load_bmp. rewrite Hfs. eexists. split; [done|]. done. }
  intros content Hfs.
  rewrite (load_bmp_opened _ _ _ _ _ Hfs). cbv zeta.
  split_and!.
  - intros Hlen. destruct (Z.ltb_spec (Z.of_nat (length content)) 14); [done|lia].
  - intros Hlen Hty.
    destruct (Z.ltb_spec (Z.of_nat (length content)) 14); [lia|].
    by destruct (Z.eqb_spec (type (file_header_of content)) 19778).
  - intros Hlen Hty.
    destruct (Z.ltb_spec (Z.of_nat (length content)) 14); [lia|].
    rewrite Hty. cbn [Z.eqb Pos.eqb negb].
    destruct (Z.ltb_spec (Z.of_nat (length content)) 54); [done|lia].
  - intros Hlen Hty Hbd.
    destruct (Z.ltb_spec (Z.of_nat (length content)) 14); [lia|].
    rewrite Hty. cbn [Z.eqb Pos.eqb negb].
    destruct (Z.ltb_spec (Z.of_nat (length content)) 54); [lia|].
    by destruct (Z.eqb_spec (bitDepth (info_header_of content)) 24).
  - intros Hlen Hty Hbd Hc.
    destruct (Z.ltb_spec (Z.of_nat (length content)) 14); [lia|].
    rewrite Hty. cbn [Z.eqb Pos.eqb negb].
    destruct (Z.ltb_spec (Z.of_nat (length content)) 54); [lia|].
    rewrite Hbd. cbn [Z.eqb Pos.eqb negb].
    by destruct (Z.eqb_spec (compression (info_header_of content)) 0).
  - intros r st Hload.
    rewrite <- (load_bmp_opened _ malloc_ok _ _ _ Hfs) in Hload.
    unfold allocation_fails, pixels_truncated, plane_request, row_bytes,
      stride, declared_width, returned_height, pixel_offset.
    destruct (load_bmp_inv _ _ _ _ _ _ _ Hfs Hload)
      as [(Hrej & -> & d & ->)|(Hacc & Hpix)].
    { pose proof (proj1 (not_accepted_iff content) Hrej) as Hkind.
      split_and!; [split; [tauto|done]|done|done|]. intros _. by left. }
    assert (¬ truncated_header content ∧ ¬ validation_fails content)
      as [Hnt Hnv].
    { split; intros Hk; apply (proj2 (not_accepted_iff content)); tauto. }
    pose proof (read_rows_from_offset content
      (width (info_header_of content)) (height_of (info_header_of content))
      (row_padded_of (width (info_header_of content)))
      (offset (file_header_of content))
      (replicate (Z.to_nat (to_size_t (wrap32
         (width (info_header_of content)
          * height_of (info_header_of content))))) None)
      (pixel_offset_nonneg content)) as Hrows.
    destruct (load_pixels_inv _ _ _ _ _ _ _ _ Hpix)
      as (_ & _ & _ & _ & _ & _ &
          [(Hm1 & -> & _ & _ & Hpl)|[(Hm1 & Hm2 & -> & _ & _ & Hpl)|
           [(Hm1 & Hm2 & Hshort & -> & _ & _ & Hpl & _)|
            (Hm1 & Hm2 & cells & Hdone & -> & _)]]]);
      cbn [malloc_calls with_fopen] in Hm1; try cbn [malloc_calls with_fopen] in Hm2.
    + split_and!; [split; [|done]|done|done|].
      * intros _. right; right; left. by left.
      * intros _. left. rewrite Hpl. exact Hplane.
    + split_and!; [split; [|done]|done|done|].
      * intros _. right; right; left. by right.
      * intros _. by right.
    + rewrite Hshort in Hrows.
      split_and!; [split; [|done]|done|done|].
      * intros _. by do 3 right.
      * intros _. by right.
    + rewrite Hdone in Hrows.
      split_and!; [split; [done|]|done|done|done].
      intros [?|[?|[[Hf1|Hf2]|(y & Hy & Hmiss)]]]; try done.
      * by rewrite Hm1 in Hf1.
      * by rewrite Hm2 in Hf2.
      * by destruct (Hrows y).
Qed.

Lemma load_fails_iff_error_condition_witness :
  load_bmp (single_file bad_magic) malloc_always "qr.bmp" initial_state =
    Some (-1, fclose (fprintf (BadMagic "qr.bmp")
                        (with_fopen "qr.bmp" Opened initial_state))).
Proof.
  destruct (load_fails_iff_error_condition (single_file bad_magic)
              malloc_always "qr.bmp" initial_state eq_refl) as [_ H].
  destruct (H bad_magic eq_refl) as (_ & Hmagic & _).
  apply Hmagic; vm_compute; discriminate.
Defined.

(** C6. A file that ends before one of its [H] rows (dimensions in range,
    both allocations granted): [load_bmp] returns -1 after the
    pixel-row diagnostic, with the plane and the row buffer freed and the
    file closed. *)
Theorem truncated_pixels_release fs malloc_ok filename s content :
  fs filename = Some content →
  accepted content →
  in_range (declared_width content) (returned_height content) →
  malloc_ok (length (malloc_calls s))
    (declared_width content * returned_height content) = true →
  malloc_ok (S (length (malloc_calls s))) (stride content) = true →
  (∃ y, 0 <= y < returned_height content
        ∧ row_missing content (pixel_offset content) (stride content) y) →
  ∃ st,
    load_bmp fs malloc_ok filename s = Some (-1, st)
    ∧ stderr st = stderr s ++ [TruncatedPixels filename]
    ∧ plane st = Freed
    ∧ bgr_row_buffer st = Released
    ∧ file st = Closed.
Proof.
  unfold stride, declared_width, returned_height, pixel_offset.
  intros Hfs Hacc Hrange Hm1 Hm2 Hmiss.
  rewrite (load_bmp_accepted _ _ _ _ _ Hfs Hacc).
  destruct (load_pixels_truncated malloc_ok filename content
              (file_header_of content) (info_header_of content)
              (with_fopen filename Opened s)
              (pixel_offset_nonneg content) Hrange Hm1 Hm2 Hmiss)
    as (st & Hload & Herr & _ & _ & _ & Hpl & Hrow & Hfile).
  exists st. split_and!; done.
Qed.

Lemma truncated_pixels_release_witness :
  ∃ st,
    load_bmp (single_file truncated_10x10) malloc_always "qr.bmp"
      initial_state = Some (-1, st)
    ∧ stderr st = [TruncatedPixels "qr.bmp"]
    ∧ plane st = Freed
    ∧ bgr_row_buffer st = Released
    ∧ file st = Closed.
Proof.
  apply (truncated_pixels_release (single_file truncated_10x10) malloc_always
           "qr.bmp" initial_state truncated_10x10).
  - reflexivity.
  - vm_compute. repeat split; discriminate.
  - vm_compute. repeat split; discriminate.
  - reflexivity.
  - reflexivity.
  - exists 5. vm_compute. repeat split; discriminate.
Defined.



(** C8, refuted as stated. With two arguments after the program name the
    program prints no usage line: it loads the first and exits with status
    0. *)
Lemma extra_argument_is_ignored :
  ∃ st,
    main (single_file checkerboard_bottom_up) malloc_always no_codes
      ["quirc"; "qr.bmp"; "other.bmp"]%string = Some (0, st)
    ∧ stderr st = []
    ∧ stdout st = [NoCodes]
    ∧ fopen_calls st = ["qr.bmp"%string].
Proof. eexists. split; [vm_compute; reflexivity|]. simpl. done. Qed.

(** C8 (amended). The program requires at least one argument after its
    name. Without one it prints the usage line and exits with status 1, no
    file opened. With one or more it runs as with the first alone: what it
    returns is what it returns on [argv[0]], [argv[1]], and the file it
    opens is [argv[1]]. *)
Theorem main_arguments fs malloc_ok qr (argv : list string) :
  ((length argv < 2)%nat →
     main fs malloc_ok qr argv =
       Some (1, fprintf (Usage (argv !! 0%nat)) initial_state)
     ∧ fopen_calls (fprintf (Usage (argv !! 0%nat)) initial_state) = [])
  ∧ ((2 <= length argv)%nat →
       main fs malloc_ok qr argv = main fs malloc_ok qr (take 2 argv)
       ∧ ∀ r st, main fs malloc_ok qr argv = Some (r, st) →
           Some <$> fopen_calls st = [argv !! 1%nat]).
Proof.
  split.
  - intros Hlen. unfold main.
    destruct (Z.ltb_spec (Z.of_nat (length argv)) 2); [done|lia].
  - intros Hlen. split.
    + unfold main. rewrite length_take.
      rewrite (lookup_take_lt argv 2 1) by lia.
      replace (2 `min` length argv)%nat with 2%nat by lia.
      by destruct (Z.ltb_spec (Z.of_nat (length argv)) 2); [lia|].
    + intros r st. unfold main.
      destruct (Z.ltb_spec (Z.of_nat (length argv)) 2); [lia|].
      destruct (lookup_lt_is_Some_2 argv 1 ltac:(lia)) as [path ->].
      simpl default.
      destruct (load_bmp fs malloc_ok path initial_state) as [[r0 s0]|]
        eqn:Hload; [|done].
      apply load_bmp_fopen_calls in Hload. simpl in Hload. simpl.
      destruct (negb (r0 =? 0)).
      { intros ?; simplify_eq. simpl. by rewrite Hload. }
      destruct (negb (quirc_new qr)).
      { intros ?; simplify_eq. simpl. by rewrite Hload. }
      destruct (out_width s0) as [w|]; [|done]. simpl.
      destruct (out_height s0) as [h|]; [|done]. simpl.
      destruct (negb (quirc_resize qr w h)).
      { intros ?; simplify_eq. simpl. by rewrite Hload. }
      destruct (negb (quirc_begin qr)).
      { intros ?; simplify_eq. simpl. by rewrite Hload. }
      destruct (plane s0) as [|cells|]; [done| |done].
      destruct (_ <? _); [done|].
      destruct (_ <? 0).
      { intros ?; simplify_eq. simpl. by rewrite Hload. }
      intros ?; simplify_eq. simpl.
      destruct (_ =? 0); simpl.
      * by rewrite Hload.
      * by rewrite report_codes_fopen_calls; simpl; rewrite Hload.
Qed.


Lemma main_arguments_witness :
  main (single_file checkerboard_bottom_up) malloc_always no_codes
    ["quirc"; "qr.bmp"; "other.bmp"]%string =
  main (single_file checkerboard_bottom_up) malloc_always no_codes
    ["quirc"; "qr.bmp"]%string.
Proof.
  destruct (main_arguments (single_file checkerboard_bottom_up) malloc_always
              no_codes ["quirc"; "qr.bmp"; "other.bmp"]%string) as [_ Hmore].
  destruct Hmore as [Heq _]; [simpl; lia|]. exact Heq.
Defined.

(** C9. On the two failure paths after the dimensions are stored (the row
    buffer is refused, or a pixel row is short), [load_bmp] returns -1 with
    [*width] and [*height] holding the parsed dimensions and [*image_data]
    still holding the address of the plane, which has been freed. *)
Theorem failure_leaves_out_parameters fs malloc_ok filename s content :
  fs filename = Some content →
  accepted content →
  malloc_ok (length (malloc_calls s)) (plane_request content) = true →
  malloc_ok (S (length (malloc_calls s))) (to_size_t (stride content)) = false
  ∨ (malloc_ok (S (length (malloc_calls s))) (to_size_t (stride content)) = true
     ∧ in_range (declared_width content) (returned_height content)
     ∧ ∃ y, 0 <= y < returned_height content
            ∧ row_missing content (pixel_offset content) (stride content) y) →
  ∃ st d,
    load_bmp fs malloc_ok filename s = Some (-1, st)
    ∧ stderr st = stderr s ++ [d]
    ∧ (d = NoRowMemory ∨ d = TruncatedPixels filename)
    ∧ out_width st = Some (declared_width content)
    ∧ out_height st = Some (returned_height content)
    ∧ image_data st = PlanePtr
    ∧ plane st = Freed.
Proof.
  unfold plane_request, stride, declared_width, returned_height, pixel_offset.
  intros Hfs Hacc Hm1 [Hm2|(Hm2 & Hrange & Hmiss)];
    rewrite (load_bmp_accepted _ _ _ _ _ Hfs Hacc).
  - destruct (load_pixels_no_row_memory malloc_ok filename content
                (file_header_of content) (info_header_of content)
                (with_fopen filename Opened s) Hm1 Hm2)
      as (st & Hload & Herr & Hw & Hh & Hptr & Hpl & _).
    exists st, NoRowMemory. split_and!; try done. by left.
  - pose proof Hrange as (Hw0 & Hh0 & Hw3 & Hwh).
    destruct (row_padded_of_bounds _ Hw0 Hw3) as [Hn _].
    assert (0 <= width (info_header_of content)
                 * height_of (info_header_of content)) by nia.
    rewrite wrap32_id in Hm1 by (unfold INT_MIN, INT_MAX in *; lia).
    rewrite to_size_t_id in Hm1, Hm2 by (unfold INT_MAX in *; lia).
    destruct (load_pixels_truncated malloc_ok filename content
                (file_header_of content) (info_header_of content)
                (with_fopen filename Opened s)
                (pixel_offset_nonneg content) Hrange Hm1 Hm2 Hmiss)
      as (st & Hload & Herr & Hw & Hh & Hptr & Hpl & _).
    exists st, (TruncatedPixels filename). split_and!; try done. by right.
Qed.

Lemma failure_leaves_out_parameters_witness :
  ∃ st d,
    load_bmp (single_file truncated_10x10) malloc_once "qr.bmp"
      initial_state = Some (-1, st)
    ∧ stderr st = [d]
    ∧ (d = NoRowMemory ∨ d = TruncatedPixels "qr.bmp")
    ∧ out_width st = Some 10
    ∧ out_height st = Some 10
    ∧ image_data st = PlanePtr
    ∧ plane st = Freed.
Proof.
  apply (failure_leaves_out_parameters (single_file truncated_10x10)
           malloc_once "qr.bmp" initial_state truncated_10x10).
  - reflexivity.
  - vm_compute. repeat split; discriminate.
  - reflexivity.
  - left. reflexivity.
Defined.

(** C10. The size asked of [malloc] for the plane is the [int] product
    [( *width) * ( *height)] converted to [size_t]: the product wrapped to 32
    bits, which is width x height when the product lies in [0, INT_MAX] and
    differs from it when the product exceeds [INT_MAX]. A successful load
    leaves a plane of the size asked, hence of width x height bytes under
    that precondition. *)
Theorem plane_allocation_size fs malloc_ok filename s content r st :
  fs filename = Some content →
  accepted content →
  load_bmp fs malloc_ok filename s = Some (r, st) →
  (∃ calls, malloc_calls st = malloc_calls s ++ plane_request content :: calls)
  ∧ (INT_MAX < declared_width content * returned_height content →
       plane_request content ≠ declared_width content * returned_height content)
  ∧ (0 <= declared_width content * returned_height content <= INT_MAX →
       plane_request content = declared_width content * returned_height content)
  ∧ (r = 0 →
       ∃ cells, plane st = Allocated cells
                ∧ Z.of_nat (length cells) = plane_request content).
Proof.
  intros Hfs Hacc Hload.
  destruct (load_bmp_inv _ _ _ _ _ _ _ Hfs Hload)
    as [(Hrej & _)|(_ & Hpix)]; [done|].
  destruct (load_pixels_inv _ _ _ _ _ _ _ _ Hpix)
    as (_ & _ & _ & _ & calls & Hcalls & Hcases).
  pose proof (declared_width_range content) as Hw.
  pose proof (wrap32_range (- height (info_header_of content))) as Hneg.
  pose proof (declared_height_range content) as Hh.
  pose proof (wrap32_range
    (declared_width content * returned_height content)) as Hwrap.
  assert (INT_MIN <= returned_height content <= INT_MAX) as Hret.
  { unfold returned_height, height_of, declared_height in *.
    destruct (0 <? height (info_header_of content)); lia. }
  unfold plane_request.
  split_and!.
  - exists calls. exact Hcalls.
  - intros Hbig Heq.
    unfold to_size_t, INT_MIN, INT_MAX in *.
    pose proof (Z.mod_pos_bound
      (wrap32 (declared_width content * returned_height content)) (2 ^ 64)
      ltac:(lia)) as Hmod.
    destruct (Z.le_gt_cases 0
      (wrap32 (declared_width content * returned_height content))) as [Hpos|Hlt].
    + rewrite Z.mod_small in Heq by lia. lia.
    + assert ((wrap32 (declared_width content * returned_height content))
                mod 2 ^ 64
              = wrap32 (declared_width content * returned_height content)
                + 2 ^ 64) as Hm.
      { symmetry. apply Z.mod_unique with (q := -1); lia. }
      rewrite Hm in Heq. nia.
  - intros Hsmall.
    rewrite wrap32_id by (unfold INT_MIN, INT_MAX in *; lia).
    apply to_size_t_id. unfold INT_MAX in *. lia.
  - intros ->.
    destruct Hcases as [(_ & ? & _)|[(_ & _ & ? & _)|[(_ & _ & _ & ? & _)|
      (_ & _ & cells & _ & _ & _ & _ & Hpl & Hlen & _)]]]; try done.
    exists cells. split; done.
Qed.

Lemma load_headers_huge :
  load_bmp (single_file headers_huge) malloc_small "qr.bmp" initial_state =
  Some (-1,
    {| stderr := [NoImageMemory]; stdout := [];
       fopen_calls := ["qr.bmp"%string];
       malloc_calls := [18446744071562067968];
       file := Closed; out_width := Some 1073741824; out_height := Some 2;
       image_data := Null; plane := Unallocated;
       bgr_row_buffer := NotAllocated |}).
Proof. vm_compute. reflexivity. Qed.

Lemma accepted_headers_huge : accepted headers_huge.
Proof. vm_compute. repeat split; discriminate. Qed.

Lemma plane_allocation_size_witness :
  plane_request headers_huge ≠
    declared_width headers_huge * returned_height headers_huge.
Proof.
  destruct (plane_allocation_size (single_file headers_huge)
              malloc_small "qr.bmp" initial_state headers_huge _ _
              eq_refl accepted_headers_huge load_headers_huge)
    as (_ & Hbig & _).
  apply Hbig. vm_compute. reflexivity.
Defined.

(** * Further properties of [load_bmp] and [main] *)

(** ** The states [load_bmp] returns in *)

(** The state after the two [malloc] calls of [load_pixels] were granted. *)
Lemma load_pixels_final malloc_ok filename content fh ih s r st :
  load_pixels malloc_ok filename content fh ih s = Some (r, st) →
  let size := to_size_t (wrap32 (width ih * height_of ih)) in
  let n := to_size_t (row_padded_of (width ih)) in
  let s1 := with_malloc_call size (set_dimensions (width ih) (height_of ih) s) in
  let s2 := with_row_buffer Live (with_malloc_call n
              (set_image_data PlanePtr
                 (Allocated (replicate (Z.to_nat size) None)) s1)) in
  (r = -1
   ∧ st = fclose (fprintf NoImageMemory (set_image_data Null (plane s) s1)))
  ∨ (r = -1
     ∧ st = fclose (free_image_data (fprintf NoRowMemory
              (with_row_buffer (bgr_row_buffer s) s2))))
  ∨ (r = -1
     ∧ st = fclose (free_image_data (with_row_buffer Released
              (fprintf (TruncatedPixels filename) s2))))
  ∨ (∃ cells, r = 0
       ∧ st = fclose (with_row_buffer Released
                (with_plane (Allocated cells) s2))).
Proof.
  unfold load_pixels, malloc. cbv zeta.
  destruct (negb (malloc_ok _ _)).
  { intros ?; simplify_eq. by left. }
  destruct (negb (malloc_ok _ _)).
  { intros ?; simplify_eq. right; left. done. }
  destruct (read_rows _ _ _ _ _ _ _) as [| |cells]; [done| |].
  - intros ?; simplify_eq. right; right; left. done.
  - intros ?; simplify_eq. right; right; right. by exists cells.
Qed.

(** Every way [load_bmp] returns. *)
Lemma load_bmp_final fs malloc_ok filename s r st :
  load_bmp fs malloc_ok filename s = Some (r, st) →
  (fs filename = None ∧ r = -1
   ∧ st = fprintf (CannotOpen filename) (with_fopen filename (file s) s))
  ∨ (∃ content d, fs filename = Some content ∧ ¬ accepted content ∧ r = -1
       ∧ st = fclose (fprintf d (with_fopen filename Opened s)))
  ∨ (∃ content, fs filename = Some content ∧ accepted content
       ∧ load_pixels malloc_ok filename content (file_header_of content)
           (info_header_of content) (with_fopen filename Opened s)
         = Some (r, st)).
Proof.
  intros Hload. destruct (fs filename) as [content|] eqn:Hfs.
  - destruct (load_bmp_inv _ _ _ _ _ _ _ Hfs Hload)
      as [(Hrej & -> & d & ->)|(Hacc & Hpix)].
    + right; left. by exists content, d.
    + right; right. by exists content.
  - unfold load_bmp in Hload. rewrite Hfs in Hload. simplify_eq. by left.
Qed.

(** A file whose headers are not accepted: [load_bmp] fails before it stores
    or allocates anything. *)
Lemma load_bmp_rejected fs malloc_ok filename s content :
  fs filename = Some content → ¬ accepted content →
  ∃ d, load_bmp fs malloc_ok filename s =
         Some (-1, fclose (fprintf d (with_fopen filename Opened s))).
Proof.
  intros Hfs Hrej. rewrite (load_bmp_opened _ _ _ _ _ Hfs). cbv zeta.
  destruct (Z.ltb_spec (Z.of_nat (length content)) 14); [by eexists|].
  destruct (Z.eqb_spec (type (file_header_of content)) 19778);
    cbn [negb]; [|by eexists].
  destruct (Z.ltb_spec (Z.of_nat (length content)) 54); [by eexists|].
  destruct (Z.eqb_spec (bitDepth (info_header_of content)) 24);
    cbn [negb]; [|by eexists].
  destruct (Z.eqb_spec (compression (info_header_of content)) 0);
    cbn [negb]; [|by eexists].
  destruct Hrej. by split_and!.
Qed.

(** ** Resources and out-parameters of [load_bmp] *)

(** X1. Whatever way [load_bmp] returns, a file it opened is closed again,
    and the row buffer is not left allocated: it is released when it was
    allocated, on the failure paths as on success. When [fopen] fails the
    stream is not touched. *)
Theorem load_bmp_releases_file_and_row_buffer fs malloc_ok filename s r st :
  bgr_row_buffer s = NotAllocated →
  load_bmp fs malloc_ok filename s = Some (r, st) →
  (match fs filename with
   | Some _ => file st = Closed
   | None => file st = file s
   end)
  ∧ bgr_row_buffer st ≠ Live
  ∧ (r = 0 → bgr_row_buffer st = Released).
Proof.
  intros Hrow Hload.
  destruct (load_bmp_final _ _ _ _ _ _ Hload)
    as [(Hfs & -> & ->)|[(content & d & Hfs & _ & -> & ->)|
        (content & Hfs & _ & Hpix)]]; rewrite Hfs.
  - simpl. rewrite Hrow. done.
  - simpl. rewrite Hrow. done.
  - destruct (load_pixels_final _ _ _ _ _ _ _ _ Hpix)
      as [(-> & ->)|[(-> & ->)|[(-> & ->)|(cells & -> & ->)]]];
      simpl; rewrite ?Hrow; done.
Qed.

Lemma load_bmp_releases_file_and_row_buffer_witness :
  ∃ st,
    load_bmp (single_file truncated_10x10) malloc_always "qr.bmp"
      initial_state = Some (-1, st)
    ∧ file st = Closed ∧ bgr_row_buffer st ≠ Live.
Proof.
  eexists. split; [vm_compute; reflexivity|].
  destruct (load_bmp_releases_file_and_row_buffer
              (single_file truncated_10x10) malloc_always "qr.bmp"
              initial_state (-1) _ eq_refl ltac:(vm_compute; reflexivity))
    as (Hfile & Hrow & _).
  split; [exact Hfile | exact Hrow].
Defined.

(** X2. When the file cannot be opened or its headers are not accepted
    (short header, magic, bit depth, compression), [load_bmp] returns -1
    without having touched [*width], [*height] or [*image_data] and without
    having called [malloc]. *)
Theorem early_failure_keeps_out_parameters fs malloc_ok filename s :
  (fs filename = None
   ∨ ∃ content, fs filename = Some content ∧ ¬ accepted content) →
  ∃ st d,
    load_bmp fs malloc_ok filename s = Some (-1, st)
    ∧ stderr st = stderr s ++ [d]
    ∧ out_width st = out_width s
    ∧ out_height st = out_height s
    ∧ image_data st = image_data s
    ∧ plane st = plane s
    ∧ malloc_calls st = malloc_calls s.
Proof.
  intros [Hfs|(content & Hfs & Hrej)].
  - unfold load_bmp. rewrite Hfs. eexists _, _. split; [done|]. simpl. done.
  - destruct (load_bmp_rejected fs malloc_ok filename s content Hfs Hrej)
      as [d ->].
    eexists _, d. split; [done|]. simpl. done.
Qed.

Lemma early_failure_keeps_out_parameters_witness :
  ∃ st d,
    load_bmp (single_file depth_8) malloc_always "qr.bmp" initial_state
      = Some (-1, st)
    ∧ stderr st = [d]
    ∧ out_width st = None
    ∧ out_height st = None
    ∧ image_data st = Null
    ∧ plane st = Unallocated
    ∧ malloc_calls st = [].
Proof.
  apply (early_failure_keeps_out_parameters (single_file depth_8)
           malloc_always "qr.bmp" initial_state).
  right. exists depth_8. split; [reflexivity|].
  intros (_ & _ & Hdepth & _). vm_compute in Hdepth. discriminate.
Defined.

(** X3. When [malloc] refuses the plane, [load_bmp] returns -1 after one
    call of [malloc]: the dimensions are already stored, [*image_data] has
    been overwritten with [NULL], the row buffer was never asked for and
    the file is closed. *)
Theorem plane_allocation_failure fs malloc_ok filename s content :
  fs filename = Some content →
  accepted content →
  malloc_ok (length (malloc_calls s)) (plane_request content) = false →
  ∃ st,
    load_bmp fs malloc_ok filename s = Some (-1, st)
    ∧ stderr st = stderr s ++ [NoImageMemory]
    ∧ malloc_calls st = malloc_calls s ++ [plane_request content]
    ∧ out_width st = Some (declared_width content)
    ∧ out_height st = Some (returned_height content)
    ∧ image_data st = Null
    ∧ plane st = plane s
    ∧ bgr_row_buffer st = bgr_row_buffer s
    ∧ file st = Closed.
Proof.
  unfold plane_request, declared_width, returned_height.
  intros Hfs Hacc Hm.
  rewrite (load_bmp_accepted _ _ _ _ _ Hfs Hacc).
  unfold load_pixels, malloc. cbv zeta.
  cbn [malloc_calls set_dimensions with_fopen]. rewrite Hm. cbn [negb].
  eexists. split; [done|]. simpl. done.
Qed.

Lemma plane_allocation_failure_witness :
  ∃ st,
    load_bmp (single_file headers_huge) malloc_small "qr.bmp" initial_state
      = Some (-1, st)
    ∧ stderr st = [] ++ [NoImageMemory]
    ∧ malloc_calls st = [] ++ [plane_request headers_huge]
    ∧ out_width st = Some (declared_width headers_huge)
    ∧ out_height st = Some (returned_height headers_huge)
    ∧ image_data st = Null
    ∧ plane st = Unallocated
    ∧ bgr_row_buffer st = NotAllocated
    ∧ file st = Closed.
Proof.
  apply (plane_allocation_failure (single_file headers_huge) malloc_small
           "qr.bmp" initial_state headers_huge eq_refl accepted_headers_huge).
  vm_compute. reflexivity.
Defined.

(** X4. [load_bmp] writes nothing to the standard output, prints no
    diagnostic when it returns 0 and exactly one when it returns -1; it
    returns no other value. *)
Theorem one_diagnostic_per_failure fs malloc_ok filename s r st :
  load_bmp fs malloc_ok filename s = Some (r, st) →
  stdout st = stdout s
  ∧ ((r = 0 ∧ stderr st = stderr s)
     ∨ (r = -1 ∧ ∃ d, stderr st = stderr s ++ [d])).
Proof.
  intros Hload.
  destruct (load_bmp_final _ _ _ _ _ _ Hload)
    as [(Hfs & -> & ->)|[(content & d & Hfs & _ & -> & ->)|
        (content & Hfs & _ & Hpix)]].
  - split; [done|]. right. split; [done|]. by eexists.
  - split; [done|]. right. split; [done|]. by eexists.
  - destruct (load_pixels_final _ _ _ _ _ _ _ _ Hpix)
      as [(-> & ->)|[(-> & ->)|[(-> & ->)|(cells & -> & ->)]]];
      (split; [done|]).
    + right. split; [done|]. by eexists.
    + right. split; [done|]. by eexists.
    + right. split; [done|]. by eexists.
    + by left.
Qed.

Lemma one_diagnostic_per_failure_witness :
  ∃ st,
    load_bmp (single_file bad_magic) malloc_always "qr.bmp" initial_state
      = Some (-1, st)
    ∧ stdout st = []
    ∧ ((-1 = 0 ∧ stderr st = [])
       ∨ (-1 = -1 ∧ ∃ d, stderr st = [] ++ [d])).
Proof.
  eexists. split; [vm_compute; reflexivity|].
  apply (one_diagnostic_per_failure (single_file bad_magic) malloc_always
           "qr.bmp" initial_state (-1)).
  vm_compute. reflexivity.
Defined.

(** ** Bytes [load_bmp] does not depend on *)

(** X5. The fields of the two headers that [load_bmp] does not read (file
    size, the reserved words, header size, planes, image size, resolutions,
    colour counts) have no effect: two files that differ in those bytes
    only, with the pixels after the headers, load alike. In particular a
    planes field other than 1 is accepted. *)
Theorem advisory_fields_ignored fs1 fs2 malloc_ok filename s c1 c2 :
  fs1 filename = Some c1 →
  fs2 filename = Some c2 →
  length c1 = length c2 →
  (∀ i : nat, ¬ advisory_byte i → c1 !! i = c2 !! i) →
  54 <= pixel_offset c1 →
  load_bmp fs1 malloc_ok filename s = load_bmp fs2 malloc_ok filename s.
Proof.
  unfold advisory_byte.
  intros Hfs1 Hfs2 Hlen Hbytes Hoff.
  apply (load_bmp_ext fs1 fs2 _ _ _ c1 c2); try done.
  - unfold file_header_of, read_file_header, uint16_at; cbn [type].
    rewrite !byte_at_take by lia. by rewrite !Hbytes by lia.
  - unfold file_header_of, read_file_header, uint32_at, uint16_at;
      cbn [offset].
    rewrite !byte_at_take by lia. by rewrite !Hbytes by lia.
  - unfold info_header_of, read_info_header, int32_at, uint32_at, uint16_at;
      cbn [width].
    rewrite !byte_at_take_drop by lia. by rewrite !Hbytes by lia.
  - unfold height_of. f_equal.
    all: unfold info_header_of, read_info_header, int32_at, uint32_at,
           uint16_at; cbn [height].
    all: rewrite !byte_at_take_drop by lia; by rewrite !Hbytes by lia.
  - unfold info_header_of, read_info_header, uint16_at; cbn [bitDepth].
    rewrite !byte_at_take_drop by lia. by rewrite !Hbytes by lia.
  - unfold info_header_of, read_info_header, uint32_at, uint16_at;
      cbn [compression].
    rewrite !byte_at_take_drop by lia. by rewrite !Hbytes by lia.
  - intros y i Hy Hi. apply Hbytes.
    pose proof (to_size_t_range (stride c1)). unfold row_bytes. nia.
Qed.

Lemma advisory_fields_ignored_witness :
  load_bmp (single_file checkerboard_bottom_up) malloc_always "qr.bmp"
    initial_state =
  load_bmp (single_file checkerboard_other_advisory) malloc_always "qr.bmp"
    initial_state.
Proof.
  apply (advisory_fields_ignored (single_file checkerboard_bottom_up)
           (single_file checkerboard_other_advisory) malloc_always "qr.bmp"
           initial_state checkerboard_bottom_up checkerboard_other_advisory).
  - reflexivity.
  - reflexivity.
  - reflexivity.
  - intros i Hi. unfold advisory_byte in Hi.
    do 70 (destruct i as [|i]; [first [reflexivity | exfalso; lia]|]).
    reflexivity.
  - vm_compute. discriminate.
Defined.

Lemma fread_app_full (content extra : list byte) (pos n : Z) :
  snd (fread content pos 1 n) = n →
  fread (content ++ extra) pos 1 n = fread content pos 1 n.
Proof.
  rewrite !fread_bytes. simpl. intros Hfull.
  assert (take (Z.to_nat n) (drop (Z.to_nat pos) (content ++ extra)) =
          take (Z.to_nat n) (drop (Z.to_nat pos) content)) as ->; [|done].
  rewrite length_take, length_drop in Hfull.
  destruct (decide (Z.to_nat pos <= length content)%nat) as [Hle|Hgt].
  - rewrite drop_app_le by done. apply take_app_le.
    rewrite length_drop. lia.
  - replace (Z.to_nat n) with 0%nat by lia. done.
Qed.

Lemma read_rows_app content extra w h n ys pos cells cells' :
  read_rows content w h n ys pos cells = RowsDone cells' →
  read_rows (content ++ extra) w h n ys pos cells = RowsDone cells'.
Proof.
  revert pos cells. induction ys as [|y ys IH]; intros pos cells; [done|].
  rewrite !read_rows_cons.
  pose proof (fread_app_full content extra pos (to_size_t n)) as Happ.
  destruct (fread content pos 1 (to_size_t n)) as [row got]. simpl in Happ.
  destruct (Z.eqb_spec got (to_size_t n)) as [Hgot|Hgot]; [|done].
  rewrite (Happ Hgot). simpl. rewrite (proj2 (Z.eqb_eq _ _) Hgot). simpl.
  destruct (convert_row _ _ _ _) as [cells1|]; [|done].
  apply IH.
Qed.

Lemma load_pixels_app malloc_ok filename content extra fh ih s st :
  load_pixels malloc_ok filename content fh ih s = Some (0, st) →
  load_pixels malloc_ok filename (content ++ extra) fh ih s = Some (0, st).
Proof.
  unfold load_pixels. cbv zeta.
  destruct (malloc _ _ _) as [ok1 s1]. destruct (negb ok1); [done|].
  destruct (malloc _ _ _) as [ok2 s2]. destruct (negb ok2); [done|].
  destruct (read_rows content _ _ _ _ _ _) as [| |cells] eqn:Hrows;
    [done|done|].
  by rewrite (read_rows_app _ extra _ _ _ _ _ _ _ Hrows).
Qed.

(** X6. Bytes after the last pixel row are ignored: a file that loads
    successfully loads to the same result with any bytes appended. *)
Theorem trailing_bytes_ignored fs1 fs2 malloc_ok filename s content extra st :
  fs1 filename = Some content →
  fs2 filename = Some (content ++ extra) →
  load_bmp fs1 malloc_ok filename s = Some (0, st) →
  load_bmp fs2 malloc_ok filename s = Some (0, st).
Proof.
  intros Hfs1 Hfs2 Hload.
  destruct (load_bmp_inv _ _ _ _ _ _ _ Hfs1 Hload)
    as [(_ & ? & _)|(Hacc & Hpix)]; [done|].
  pose proof Hacc as (Hlen & Hty & Hbd & Hc).
  assert (file_header_of (content ++ extra) = file_header_of content) as Hfh.
  { unfold file_header_of. by rewrite take_app_le by lia. }
  assert (info_header_of (content ++ extra) = info_header_of content) as Hih.
  { unfold info_header_of. rewrite drop_app_le by lia.
    by rewrite take_app_le by (rewrite length_drop; lia). }
  rewrite (load_bmp_accepted _ _ _ _ _ Hfs2).
  - rewrite Hfh, Hih. by apply load_pixels_app.
  - unfold accepted. rewrite Hfh, Hih, length_app. split_and!; try done. lia.
Qed.

Lemma trailing_bytes_ignored_witness :
  ∃ st,
    load_bmp (single_file checkerboard_bottom_up) malloc_always "qr.bmp"
      initial_state = Some (0, st)
    ∧ load_bmp (single_file (checkerboard_bottom_up ++ padding 5 0x11))
        malloc_always "qr.bmp" initial_state = Some (0, st).
Proof.
  eexists. split; [vm_compute; reflexivity|].
  apply (trailing_bytes_ignored (single_file checkerboard_bottom_up)
           (single_file (checkerboard_bottom_up ++ padding 5 0x11))
           malloc_always "qr.bmp" initial_state checkerboard_bottom_up
           (padding 5 0x11)).
  - reflexivity.
  - reflexivity.
  - vm_compute. reflexivity.
Defined.

(** ** The padded row length *)

(** X7. For a width whose row fits an [int] ([3 W + 3 <= INT_MAX]) the
    padded row length [( *width * 3 + 3) & ~3] is the least multiple of 4
    that holds the [3 W] bytes of a row: the padding is 0 to 3 bytes. *)
Theorem row_padded_least_multiple_of_4 (w : Z) :
  0 <= w → w * 3 + 3 <= INT_MAX →
  row_padded_of w mod 4 = 0
  ∧ w * 3 <= row_padded_of w < w * 3 + 4
  ∧ ∀ m, m mod 4 = 0 → w * 3 <= m → row_padded_of w <= m.
Proof.
  intros Hw Hmax. rewrite row_padded_of_eq by done.
  split_and!.
  - rewrite Z.mul_comm. apply Z.mod_mul. lia.
  - pose proof (Z.div_mod (w * 3 + 3) 4 ltac:(lia)).
    pose proof (Z.mod_pos_bound (w * 3 + 3) 4 ltac:(lia)). lia.
  - pose proof (Z.div_mod (w * 3 + 3) 4 ltac:(lia)).
    pose proof (Z.mod_pos_bound (w * 3 + 3) 4 ltac:(lia)). lia.
  - intros m Hm Hle.
    pose proof (Z.div_mod m 4 ltac:(lia)) as Hdm. rewrite Hm in Hdm.
    pose proof (Z.div_mod (w * 3 + 3) 4 ltac:(lia)).
    pose proof (Z.mod_pos_bound (w * 3 + 3) 4 ltac:(lia)). lia.
Qed.

Lemma row_padded_least_multiple_of_4_witness :
  row_padded_of 2 mod 4 = 0
  ∧ 2 * 3 <= row_padded_of 2 < 2 * 3 + 4
  ∧ ∀ m, m mod 4 = 0 → 2 * 3 <= m → row_padded_of 2 <= m.
Proof.
  apply (row_padded_least_multiple_of_4 2); vm_compute; discriminate.
Defined.

(** X8. For a width above 715827881 the [int] computation of the padded
    row length overflows and yields less than the [3 W] bytes of a row. Up
    to 1431655764, and at [INT_MAX], it yields a negative length, which the
    conversion to [size_t] turns into a request of at least [2^64 - 2^31]
    bytes for the row buffer; between the two it yields a length that is not
    negative, and the row buffer asked of [malloc] is smaller than a row. *)
Theorem row_padded_overflow (w : Z) :
  715827881 < w <= INT_MAX →
  row_padded_of w < w * 3
  ∧ (w <= 1431655764 ∨ w = INT_MAX →
       row_padded_of w < 0
       ∧ 2 ^ 64 - 2 ^ 31 <= to_size_t (row_padded_of w))
  ∧ (1431655764 < w < INT_MAX →
       0 <= row_padded_of w
       ∧ to_size_t (row_padded_of w) = row_padded_of w
       ∧ to_size_t (row_padded_of w) < w * 3).
Proof.
  intros Hw. unfold row_padded_of. rewrite land_lnot_3.
  pose proof (wrap32_range (w * 3 + 3)) as Hr.
  assert (wrap32 (w * 3 + 3) = w * 3 + 3 - 2 ^ 32 ∧ w < INT_MAX
          ∨ wrap32 (w * 3 + 3) = - 2 ^ 31 ∧ w = INT_MAX) as Hz.
  { unfold wrap32, INT_MAX in *.
    pose proof (Z.div_mod (w * 3 + 3 + 2 ^ 31) (2 ^ 32) ltac:(lia)).
    pose proof (Z.mod_pos_bound (w * 3 + 3 + 2 ^ 31) (2 ^ 32) ltac:(lia)).
    lia. }
  pose proof (Z.div_mod (wrap32 (w * 3 + 3)) 4 ltac:(lia)) as Hdm.
  pose proof (Z.mod_pos_bound (wrap32 (w * 3 + 3)) 4 ltac:(lia)) as Hmod.
  set (n := 4 * (wrap32 (w * 3 + 3) / 4)) in *.
  unfold INT_MIN, INT_MAX in *.
  split; [lia|]. split.
  - intros Hlow. assert (- 2 ^ 31 <= n < 0) as Hn by lia.
    split; [lia|]. unfold to_size_t.
    rewrite <- (Z.mod_add n 1 (2 ^ 64)) by lia.
    rewrite Z.mod_small by lia. lia.
  - intros Hhigh. assert (0 <= n < 2 ^ 31) as Hn by lia.
    rewrite to_size_t_id by lia. lia.
Qed.

Lemma row_padded_overflow_witness :
  row_padded_of 715827882 < 715827882 * 3
  ∧ row_padded_of 715827882 < 0
  ∧ 2 ^ 64 - 2 ^ 31 <= to_size_t (row_padded_of 715827882).
Proof.
  destruct (row_padded_overflow 715827882) as (Hlt & Hneg & _).
  - vm_compute. split; [reflexivity|intros [=]].
  - split; [exact Hlt|]. apply Hneg. left. vm_compute. intros [=].
Defined.

(** ** The plane after a successful load *)

(** X9. After a successful load with dimensions in range, every byte of
    the plane has been written by the loop and holds a value in [0, 255]:
    the plane handed to the caller has no byte left as [malloc] returned
    it. *)
Theorem plane_fully_written fs malloc_ok filename s content :
  fs filename = Some content →
  accepted content →
  in_range (declared_width content) (returned_height content) →
  malloc_ok (length (malloc_calls s))
    (declared_width content * returned_height content) = true →
  malloc_ok (S (length (malloc_calls s))) (stride content) = true →
  pixel_offset content + returned_height content * stride content
    <= Z.of_nat (length content) →
  ∃ st cells,
    load_bmp fs malloc_ok filename s = Some (0, st)
    ∧ plane st = Allocated cells
    ∧ Z.of_nat (length cells) =
        declared_width content * returned_height content
    ∧ ∀ i, (i < length cells)%nat →
        ∃ v, cells !! i = Some (Some v) ∧ 0 <= v <= 255.
Proof.
  unfold declared_width, returned_height, stride, pixel_offset.
  intros Hfs Hacc Hrange Hm1 Hm2 Hfile.
  rewrite (load_bmp_accepted _ _ _ _ _ Hfs Hacc).
  destruct (load_pixels_complete malloc_ok filename content
              (file_header_of content) (info_header_of content)
              (with_fopen filename Opened s)
              (pixel_offset_nonneg content) Hrange Hm1 Hm2
              (fun _ => Hfile))
    as (st & cells & Hload & _ & _ & _ & _ & _ & _ & Hpl & Hlen & Hcells).
  exists st, cells. split_and!; try done.
  intros i Hi.
  set (w := width (info_header_of content)) in *.
  set (h := height_of (info_header_of content)) in *.
  destruct Hrange as (Hw & Hh & _ & _).
  assert (0 < w) as Hwpos by nia.
  pose proof (Z.div_mod (Z.of_nat i) w ltac:(lia)) as Hdm.
  pose proof (Z.mod_pos_bound (Z.of_nat i) w Hwpos) as Hmod.
  assert (0 <= Z.of_nat i / w) as Hq0 by (apply Z.div_pos; lia).
  assert (Z.of_nat i / w < h) as Hqh.
  { apply Z.div_lt_upper_bound; lia. }
  specialize (Hcells (h - 1 - Z.of_nat i / w) (Z.of_nat i mod w)
                ltac:(lia) ltac:(lia)).
  replace (Z.to_nat ((h - 1 - (h - 1 - Z.of_nat i / w)) * w
                     + Z.of_nat i mod w)) with i in Hcells by lia.
  eexists. split; [exact Hcells|]. apply luminance_range.
Qed.

Lemma plane_fully_written_witness :
  ∃ st cells,
    load_bmp (single_file checkerboard_bottom_up) malloc_always "qr.bmp"
      initial_state = Some (0, st)
    ∧ plane st = Allocated cells
    ∧ Z.of_nat (length cells) =
        declared_width checkerboard_bottom_up
        * returned_height checkerboard_bottom_up
    ∧ ∀ i, (i < length cells)%nat →
        ∃ v, cells !! i = Some (Some v) ∧ 0 <= v <= 255.
Proof.
  apply (plane_fully_written (single_file checkerboard_bottom_up)
           malloc_always "qr.bmp" initial_state checkerboard_bottom_up).
  - reflexivity.
  - vm_compute. repeat split; discriminate.
  - vm_compute. repeat split; discriminate.
  - reflexivity.
  - reflexivity.
  - vm_compute. discriminate.
Defined.

(** ** Gray pixels *)

Lemma gray_within_one_all : forallb gray_within_one all_bytes = true.
Proof. vm_compute. reflexivity. Qed.

(** X10. A gray pixel (R = G = B = v) is not always kept: its luminance is
    [v] or [v - 1], and there are levels that come out one below, the three
    products not summing to [v] exactly in binary64. *)
Theorem gray_pixel_luminance :
  (∀ v : byte, luma v v v = Some (u8 v) ∨ luma v v v = Some (u8 v - 1))
  ∧ ∃ v : byte, luma v v v = Some (u8 v - 1).
Proof.
  split.
  - intros v. pose proof gray_within_one_all as H.
    rewrite forallb_forall in H.
    specialize (H v (proj1 (list_elem_of_In _ _) (elem_of_all_bytes v))).
    unfold gray_within_one in H.
    destruct (luma v v v) as [t|]; [|done].
    apply orb_prop in H as [Ht%Z.eqb_eq|Ht%Z.eqb_eq]; subst; auto.
  - exists x01. vm_compute. reflexivity.
Qed.

(** ** The header fields *)

Lemma u8_byte_of_Z (z : Z) : u8 (byte_of_Z z) = z mod 256.
Proof.
  unfold u8, byte_of_Z.
  pose proof (Z.mod_pos_bound z 256 ltac:(lia)) as Hz.
  destruct (Byte.of_N (Z.to_N (z mod 256))) as [b|] eqn:Hb.
  - apply Byte.to_of_N in Hb. simpl. rewrite Hb. lia.
  - apply Byte.of_N_None_iff in Hb. lia.
Qed.

Lemma le32_value (z : Z) :
  z mod 256 + 2 ^ 8 * ((z / 2 ^ 8) mod 256)
  + 2 ^ 16 * ((z / 2 ^ 16) mod 256 + 2 ^ 8 * ((z / 2 ^ 16 / 2 ^ 8) mod 256))
  = z mod 2 ^ 32.
Proof.
  change (2 ^ 8) with 256. change (2 ^ 16) with 65536.
  change (2 ^ 32) with 4294967296.
  Z.div_mod_to_equations. lia.
Qed.

Lemma le16_value (z : Z) :
  z mod 256 + 2 ^ 8 * ((z / 2 ^ 8) mod 256) = z mod 2 ^ 16.
Proof.
  change (2 ^ 8) with 256. change (2 ^ 16) with 65536.
  Z.div_mod_to_equations. lia.
Qed.

(** X11. The headers are read as packed little-endian structs: from a file
    that starts with the fields of a BMP file header and info header in
    their order, each encoded little-endian (two's complement for the signed
    width and height), [load_bmp] reads back the magic, the pixel offset,
    the width, the height, the bit depth and the compression. *)
Theorem header_fields_little_endian (magic offs w h depth comp : Z)
    (rest : list byte) :
  0 <= magic < 2 ^ 16 → 0 <= offs < 2 ^ 32 →
  INT_MIN <= w <= INT_MAX → INT_MIN <= h <= INT_MAX →
  0 <= depth < 2 ^ 16 → 0 <= comp < 2 ^ 32 →
  let content := bmp_headers magic offs w h depth comp ++ rest in
  type (file_header_of content) = magic
  ∧ offset (file_header_of content) = offs
  ∧ width (info_header_of content) = w
  ∧ height (info_header_of content) = h
  ∧ bitDepth (info_header_of content) = depth
  ∧ compression (info_header_of content) = comp.
Proof.
  intros Hmagic Hoffs Hw Hh Hdepth Hcomp content.
  unfold content, file_header_of, info_header_of, bmp_headers, le32, le16.
  cbn [app take drop read_file_header read_info_header type offset width
       height bitDepth compression].
  unfold int32_at, uint32_at, uint16_at, byte_at.
  cbn [nth Nat.add]. rewrite !u8_byte_of_Z.
  rewrite !le32_value, !le16_value.
  unfold INT_MIN, INT_MAX in *.
  split_and!.
  - apply Z.mod_small. lia.
  - apply Z.mod_small. lia.
  - destruct (Z.ltb_spec (w mod 2 ^ 32) (2 ^ 31));
      Z.div_mod_to_equations; lia.
  - destruct (Z.ltb_spec (h mod 2 ^ 32) (2 ^ 31));
      Z.div_mod_to_equations; lia.
  - apply Z.mod_small. lia.
  - apply Z.mod_small. lia.
Qed.

Lemma header_fields_little_endian_witness :
  type (file_header_of checkerboard_top_down) = 0x4D42
  ∧ offset (file_header_of checkerboard_top_down) = 54
  ∧ width (info_header_of checkerboard_top_down) = 2
  ∧ height (info_header_of checkerboard_top_down) = -2
  ∧ bitDepth (info_header_of checkerboard_top_down) = 24
  ∧ compression (info_header_of checkerboard_top_down) = 0.
Proof.
  apply (header_fields_little_endian 0x4D42 54 2 (-2) 24 0
           (white ++ black ++ padding 2 0 ++ black ++ white ++ padding 2 0));
    vm_compute; split; discriminate || reflexivity.
Defined.

(** ** What [main] leaves and prints *)

Lemma report_codes_state qr w h image (codes : list Z) (s : state) :
  stdout (foldl (report_code qr w h image) s codes) =
    stdout s ++ (report_line qr w h image <$> codes)
  ∧ stderr (foldl (report_code qr w h image) s codes) = stderr s
  ∧ file (foldl (report_code qr w h image) s codes) = file s
  ∧ bgr_row_buffer (foldl (report_code qr w h image) s codes)
    = bgr_row_buffer s.
Proof.
  revert s. induction codes as [|i codes IH]; intros s.
  - simpl. by rewrite app_nil_r.
  - simpl. destruct (IH (report_code qr w h image s i)) as (-> & -> & -> & ->).
    unfold report_code, report_line.
    destruct (quirc_decode qr w h image i); simpl; by rewrite <- app_assoc.
Qed.

Lemma load_bmp_from_initial_state fs malloc_ok path r0 s0 :
  load_bmp fs malloc_ok path initial_state = Some (r0, s0) →
  file s0 ≠ Opened
  ∧ bgr_row_buffer s0 ≠ Live
  ∧ stdout s0 = []
  ∧ (r0 = 0 ∨ r0 = -1)
  ∧ (r0 = 0 → stderr s0 = [])
  ∧ (r0 ≠ 0 → ∀ cells, plane s0 ≠ Allocated cells).
Proof.
  intros Hload.
  destruct (load_bmp_final _ _ _ _ _ _ Hload)
    as [(Hfs & -> & ->)|[(content & d & Hfs & _ & -> & ->)|
        (content & Hfs & _ & Hpix)]].
  - simpl. split_and!; try done. by right.
  - simpl. split_and!; try done. by right.
  - destruct (load_pixels_final _ _ _ _ _ _ _ _ Hpix)
      as [(-> & ->)|[(-> & ->)|[(-> & ->)|(cells & -> & ->)]]];
      simpl; split_and!; try done; by (left + right).
Qed.

(** X12. However [main] returns, its exit status is 0 or 1, the plane is
    not left allocated (it was never allocated, or [load_bmp] or [main]
    freed it), no file is left open and no row buffer allocated; with exit
    status 1 nothing was written to the standard output. *)
Theorem main_exit_status_and_release fs malloc_ok qr argv r st :
  main fs malloc_ok qr argv = Some (r, st) →
  (r = 0 ∨ r = 1)
  ∧ (∀ cells, plane st ≠ Allocated cells)
  ∧ file st ≠ Opened
  ∧ bgr_row_buffer st ≠ Live
  ∧ (r = 1 → stdout st = []).
Proof.
  unfold main. destruct (_ <? 2).
  { intros ?; simplify_eq. simpl. split_and!; try done. by right. }
  destruct (load_bmp fs malloc_ok _ initial_state) as [[r0 s0]|] eqn:Hload;
    [|done].
  destruct (load_bmp_from_initial_state _ _ _ _ _ Hload)
    as (Hfile & Hrow & Hout & Hr0 & _ & Hplane).
  simpl.
  destruct (Z.eqb_spec r0 0) as [->|Hne]; simpl.
  2:{ intros ?; simplify_eq. simpl. split_and!; try done; [by right|auto]. }
  destruct (negb (quirc_new qr)).
  { intros ?; simplify_eq. simpl. split_and!; try done. by right. }
  destruct (out_width s0) as [w|]; [|done]. simpl.
  destruct (out_height s0) as [h|]; [|done]. simpl.
  destruct (negb (quirc_resize qr w h)).
  { intros ?; simplify_eq. simpl. split_and!; try done. by right. }
  destruct (negb (quirc_begin qr)).
  { intros ?; simplify_eq. simpl. split_and!; try done. by right. }
  destruct (plane s0) as [|cells|]; [done| |done].
  destruct (_ <? _); [done|].
  destruct (_ <? 0).
  { intros ?; simplify_eq. simpl. split_and!; try done. by right. }
  intros ?; simplify_eq. simpl.
  destruct (_ =? 0); simpl.
  - split_and!; try done. by left.
  - destruct (report_codes_state qr w h
                (take (Z.to_nat (to_size_t (to_size_t w * to_size_t h))) cells)
                (seqZ 0 (quirc_count qr w h
                   (take (Z.to_nat (to_size_t (to_size_t w * to_size_t h)))
                      cells)))
                (printf (Found (quirc_count qr w h
                   (take (Z.to_nat (to_size_t (to_size_t w * to_size_t h)))
                      cells))) s0))
      as (_ & _ & -> & ->).
    simpl. split_and!; try done. by left.
Qed.

Lemma main_exit_status_and_release_witness :
  ∃ st,
    main (single_file truncated_10x10) malloc_always no_codes
      ["quirc"; "qr.bmp"]%string = Some (1, st)
    ∧ (∀ cells, plane st ≠ Allocated cells)
    ∧ file st ≠ Opened
    ∧ stdout st = [].
Proof.
  eexists. split; [vm_compute; reflexivity|].
  destruct (main_exit_status_and_release (single_file truncated_10x10)
              malloc_always no_codes ["quirc"; "qr.bmp"]%string 1 _
              ltac:(vm_compute; reflexivity))
    as (_ & Hplane & Hfile & _ & Hout).
  split; [exact Hplane|]. split; [exact Hfile|]. exact (Hout eq_refl).
Defined.

(** X13. When [load_bmp] succeeds with dimensions that fit an [int] and the
    recognizer accepts them, [main] hands the recognizer the plane as
    loaded, with its width and height, frees the plane and exits with
    status 0. It prints one line when no code is found; otherwise the count
    and then one line per code in order, numbered from 1, with the payload
    or the reason of the decode failure. *)
Theorem main_reports fs malloc_ok qr argv path s0 w h cells :
  argv !! 1%nat = Some path →
  load_bmp fs malloc_ok path initial_state = Some (0, s0) →
  out_width s0 = Some w → out_height s0 = Some h →
  plane s0 = Allocated cells →
  0 <= w → 0 <= h → w * h <= INT_MAX →
  quirc_new qr = true → quirc_resize qr w h = true → quirc_begin qr = true →
  0 <= quirc_count qr w h cells →
  ∃ st,
    main fs malloc_ok qr argv = Some (0, st)
    ∧ stdout st =
        (if quirc_count qr w h cells =? 0 then [NoCodes]
         else Found (quirc_count qr w h cells)
              :: (report_line qr w h cells
                    <$> seqZ 0 (quirc_count qr w h cells)))
    ∧ stderr st = []
    ∧ plane st = Freed.
Proof.
  intros Hpath Hload Hw Hh Hpl Hw0 Hh0 Hwh Hnew Hres Hbeg Hcount.
  destruct (load_bmp_from_initial_state _ _ _ _ _ Hload)
    as (_ & _ & Hout & _ & Herr & _). specialize (Herr eq_refl).
  assert (Z.of_nat (length cells) = w * h) as Hlen.
  { destruct (load_bmp_final _ _ _ _ _ _ Hload)
      as [(_ & ? & _)|[(? & ? & _ & _ & ? & _)|(content & _ & _ & Hpix)]];
      [done|done|].
    destruct (load_pixels_inv _ _ _ _ _ _ _ _ Hpix)
      as (Hw' & Hh' & _ & _ & _ & _ &
          [(_ & ? & _)|[(_ & _ & ? & _)|[(_ & _ & _ & ? & _)|
           (_ & _ & cells' & _ & _ & _ & _ & Hpl' & Hlen' & _)]]]);
      try done.
    rewrite Hw in Hw'. rewrite Hh in Hh'. rewrite Hpl in Hpl'.
    simplify_eq. rewrite Hlen'.
    assert (0 <= width (info_header_of content)
                 * height_of (info_header_of content)) by nia.
    rewrite wrap32_id by (unfold INT_MIN, INT_MAX in *; lia).
    apply to_size_t_id. unfold INT_MAX in *. lia. }
  assert (to_size_t (to_size_t w * to_size_t h) = w * h) as Hn.
  { assert (0 <= w * h) by nia.
    assert (h <= INT_MAX ∨ w = 0) as Hb by (unfold INT_MAX in *; nia).
    assert (w <= INT_MAX ∨ h = 0) as Hb' by (unfold INT_MAX in *; nia).
    destruct (Z.eq_dec w 0) as [->|Hw1]; [by rewrite Z.mul_0_l|].
    destruct (Z.eq_dec h 0) as [->|Hh1]; [by rewrite !Z.mul_0_r|].
    rewrite (to_size_t_id w), (to_size_t_id h), to_size_t_id;
      unfold INT_MAX in *; lia. }
  unfold main.
  destruct (Z.ltb_spec (Z.of_nat (length argv)) 2) as [Hshort|_].
  { apply lookup_lt_Some in Hpath. lia. }
  rewrite Hpath. simpl default. rewrite Hload. simpl.
  rewrite Hnew, Hw. simpl. rewrite Hh. simpl. rewrite Hres, Hbeg. simpl.
  rewrite Hpl, Hn.
  destruct (Z.ltb_spec (Z.of_nat (length cells)) (w * h)); [lia|].
  rewrite firstn_all2 by lia.
  destruct (Z.ltb_spec (quirc_count qr w h cells) 0); [lia|].
  eexists. split; [done|].
  destruct (quirc_count qr w h cells =? 0); simpl.
  - rewrite Hout, Herr. done.
  - destruct (report_codes_state qr w h cells
                (seqZ 0 (quirc_count qr w h cells))
                (printf (Found (quirc_count qr w h cells)) s0))
      as (-> & -> & _).
    simpl. rewrite Hout, Herr. done.
Qed.

Lemma main_reports_witness :
  ∃ st,
    main (single_file checkerboard_bottom_up) malloc_always two_codes
      ["quirc"; "qr.bmp"]%string = Some (0, st)
    ∧ stdout st =
        [Found 2; Payload 1 "HELLO"; DecodeFailed 2 "ECC failure"]
    ∧ stderr st = []
    ∧ plane st = Freed.
Proof.
  apply (main_reports (single_file checkerboard_bottom_up) malloc_always
           two_codes ["quirc"; "qr.bmp"]%string "qr.bmp"
           {| stderr := []; stdout := []; fopen_calls := ["qr.bmp"%string];
              malloc_calls := [4; 8]; file := Closed;
              out_width := Some 2; out_height := Some 2;
              image_data := PlanePtr;
              plane := Allocated [Some 255; Some 0; Some 0; Some 255];
              bgr_row_buffer := Released |}
           2 2 [Some 255; Some 0; Some 0; Some 255]);
    try reflexivity; vm_compute; discriminate.
Defined.

(** ** The calls [load_bmp] makes *)

(** X14. [load_bmp] opens the file it is given, once, and calls [malloc] at
    most twice: not at all when the headers are refused, for the plane
    only when the plane is refused, and otherwise for the plane and then for
    one row of [row_padded] bytes. *)
Theorem load_bmp_calls fs malloc_ok filename s r st :
  load_bmp fs malloc_ok filename s = Some (r, st) →
  fopen_calls st = fopen_calls s ++ [filename]
  ∧ (malloc_calls st = malloc_calls s
     ∨ ∃ content, fs filename = Some content ∧ accepted content
         ∧ (malloc_calls st = malloc_calls s ++ [plane_request content]
            ∨ malloc_calls st =
                malloc_calls s ++ [plane_request content; row_bytes content])).
Proof.
  intros Hload. split; [by eapply load_bmp_fopen_calls|].
  destruct (load_bmp_final _ _ _ _ _ _ Hload)
    as [(Hfs & -> & ->)|[(content & d & Hfs & _ & -> & ->)|
        (content & Hfs & Hacc & Hpix)]].
  - by left.
  - by left.
  - right. exists content. split; [done|]. split; [done|].
    unfold plane_request, row_bytes, stride, declared_width, returned_height.
    destruct (load_pixels_final _ _ _ _ _ _ _ _ Hpix)
      as [(-> & ->)|[(-> & ->)|[(-> & ->)|(cells & -> & ->)]]]; simpl.
    + by left.
    + right. by rewrite <- app_assoc.
    + right. by rewrite <- app_assoc.
    + right. by rewrite <- app_assoc.
Qed.

Lemma load_bmp_calls_witness :
  ∃ st,
    load_bmp (single_file checkerboard_bottom_up) malloc_always "qr.bmp"
      initial_state = Some (0, st)
    ∧ fopen_calls st = ["qr.bmp"%string]
    ∧ malloc_calls st = [4; 8].
Proof.
  eexists. split; [vm_compute; reflexivity|].
  destruct (load_bmp_calls (single_file checkerboard_bottom_up) malloc_always
              "qr.bmp" initial_state 0 _ ltac:(vm_compute; reflexivity))
    as (Hopen & _).
  split; [exact Hopen|reflexivity].
Defined.

(** ** The luminance grows with each channel *)

Lemma digits2_pos_lower (m : positive) :
  2 ^ (Z.pos (digits2_pos m) - 1) <= Z.pos m.
Proof.
  induction m as [m IH|m IH|]; simpl digits2_pos.
  - rewrite Pos2Z.inj_succ.
    replace (Z.succ (Z.pos (digits2_pos m)) - 1)
      with (Z.succ (Z.pos (digits2_pos m) - 1)) by lia.
    rewrite Z.pow_succ_r by lia. lia.
  - rewrite Pos2Z.inj_succ.
    replace (Z.succ (Z.pos (digits2_pos m)) - 1)
      with (Z.succ (Z.pos (digits2_pos m) - 1)) by lia.
    rewrite Z.pow_succ_r by lia. lia.
  - reflexivity.
Qed.

(** A valid binary64 mantissa: below [2^53], and at least [2^52] unless the
    exponent is the least one. *)
Lemma valid_mantissa_normal (s : bool) (m : positive) (e : Z) :
  valid_binary (S754_finite s m e) = true →
  -1074 <= e ∧ Z.pos m < 2 ^ 53 ∧ (-1074 < e → 2 ^ 52 <= Z.pos m).
Proof.
  intros Hv. pose proof (valid_mantissa_bound _ _ _ Hv) as Hub.
  revert Hv.
  unfold valid_binary, bounded, canonical_mantissa, fexp, emin, prec, emax.
  intros [Hc _]%andb_prop. apply Z.eqb_eq in Hc.
  split_and!; [lia|done|].
  intros He. assert (Z.pos (digits2_pos m) = 53) as Hd by lia.
  pose proof (digits2_pos_lower m) as Hl. by rewrite Hd in Hl.
Qed.

Lemma in_byte_range_inv (f : float) :
  in_byte_range f = true →
  (∃ s, Prim2SF f = S754_zero s)
  ∨ (∃ m e, Prim2SF f = S754_finite false m e
            ∧ valid_binary (S754_finite false m e) = true ∧ e <= -44).
Proof.
  unfold in_byte_range. intros [Hle Hlt]%andb_prop.
  rewrite leb_spec, Prim2SF_zero in Hle. rewrite ltb_spec, Prim2SF_256 in Hlt.
  pose proof (Prim2SF_valid f) as Hv.
  destruct (Prim2SF f) as [s| s | |s m e].
  - left. by exists s.
  - destruct s; discriminate.
  - discriminate.
  - destruct s; [discriminate|]. right. exists m, e.
    split_and!; [done|done|].
    unfold SFltb, SFcompare in Hlt.
    destruct (Z.compare_spec e (-44)); [lia|lia|discriminate].
Qed.

Lemma shiftr_mantissa_mono (m1 m2 e1 e2 : Z) :
  0 < m1 < 2 ^ 53 → 2 ^ 52 <= m2 → e1 < e2 → e2 <= 0 →
  Z.shiftl m1 e1 <= Z.shiftl m2 e2.
Proof.
  intros Hm1 Hm2 He He2.
  rewrite <- (Z.opp_involutive e1), <- (Z.opp_involutive e2).
  rewrite !Z.shiftl_opp_r, !Z.shiftr_div_pow2 by lia.
  replace (- e1) with ((- e1 - - e2) + - e2) by lia.
  rewrite Z.pow_add_r by lia.
  assert (0 < 2 ^ (- e1 - - e2)) as Hp1 by (apply Z.pow_pos_nonneg; lia).
  assert (0 < 2 ^ (- e2)) as Hp2 by (apply Z.pow_pos_nonneg; lia).
  rewrite <- Z.div_div by lia.
  apply Z.div_le_mono; [lia|].
  assert (2 ^ 1 <= 2 ^ (- e1 - - e2)) as Hge
    by (apply Z.pow_le_mono_r; lia).
  change (2 ^ 1) with 2 in Hge.
  assert (m1 / 2 ^ (- e1 - - e2) < 2 ^ 52); [|lia].
  apply Z.div_lt_upper_bound; [lia|].
  change (2 ^ 53) with (2 * 2 ^ 52) in Hm1. nia.
Qed.

(** On the [double]s that convert to a byte, the conversion is monotone. *)
Lemma trunc_float_mono (f1 f2 : float) :
  in_byte_range f1 = true → in_byte_range f2 = true →
  PrimFloat.leb f1 f2 = true →
  ∃ t1 t2, trunc_float f1 = Some t1 ∧ trunc_float f2 = Some t2 ∧ t1 <= t2.
Proof.
  intros H1 H2 Hle. rewrite leb_spec in Hle. unfold trunc_float.
  destruct (in_byte_range_inv f1 H1) as [[s1 E1]|(m1 & e1 & E1 & Hv1 & He1)],
    (in_byte_range_inv f2 H2) as [[s2 E2]|(m2 & e2 & E2 & Hv2 & He2)];
    rewrite E1, E2 in *.
  - exists 0, 0. done.
  - exists 0, (Z.shiftl (Z.pos m2) e2). split_and!; [done|done|].
    simpl. apply Z.shiftl_nonneg. lia.
  - discriminate.
  - exists (Z.shiftl (Z.pos m1) e1), (Z.shiftl (Z.pos m2) e2).
    split_and!; [done|done|].
    destruct (valid_mantissa_normal _ _ _ Hv1) as (Hmin1 & Hub1 & _).
    destruct (valid_mantissa_normal _ _ _ Hv2) as (_ & _ & Hlb2).
    unfold SFleb, SFcompare in Hle.
    destruct (Z.compare_spec e1 e2) as [->|Hlt|Hgt].
    + destruct (PosDef.Pos.compare_cont Eq m1 m2) eqn:Hm; try discriminate.
      * apply Pos.compare_eq in Hm. by subst.
      * assert (Z.pos m1 < Z.pos m2) by (apply Pos2Z.pos_lt_pos; exact Hm).
        rewrite <- (Z.opp_involutive e2).
        rewrite !Z.shiftl_opp_r, !Z.shiftr_div_pow2 by lia.
        apply Z.div_le_mono; [apply Z.pow_pos_nonneg; lia|lia].
    + apply shiftr_mantissa_mono; [lia|apply Hlb2; lia|done|lia].
    + discriminate.
Qed.

Lemma luminance_trunc (r g b : byte) (t : Z) :
  trunc_float (luma_sum r g b) = Some t → 0 <= t <= 255 → luminance r g b = t.
Proof.
  intros Ht Hr. unfold luminance, luma, uint8_of_double. rewrite Ht. simpl.
  by rewrite bool_decide_eq_true_2.
Qed.

Lemma luminance_le_of_sums (r g b r' g' b' : byte) :
  PrimFloat.leb (luma_sum r g b) (luma_sum r' g' b') = true →
  luminance r g b <= luminance r' g' b'.
Proof.
  intros Hle.
  destruct (trunc_float_mono _ _ (luma_sum_in_byte_range r g b)
              (luma_sum_in_byte_range r' g' b') Hle)
    as (t1 & t2 & Ht1 & Ht2 & Hmono).
  destruct (in_byte_range_trunc _ (luma_sum_in_byte_range r g b))
    as (u1 & Hu1 & Hr1).
  destruct (in_byte_range_trunc _ (luma_sum_in_byte_range r' g' b'))
    as (u2 & Hu2 & Hr2).
  simplify_eq.
  by rewrite (luminance_trunc _ _ _ _ Ht1 Hr1), (luminance_trunc _ _ _ _ Ht2 Hr2).
Qed.

Lemma red_steps_ordered :
  forallb3 (fun fr fg fb =>
      PrimFloat.leb (fr.1 + fg + fb)%float (fr.2 + fg + fb)%float)
    red_steps green_terms blue_terms = true.
Proof. vm_compute. reflexivity. Qed.

Lemma green_steps_ordered :
  forallb3 (fun fr fg fb =>
      PrimFloat.leb (fr + fg.1 + fb)%float (fr + fg.2 + fb)%float)
    red_terms green_steps blue_terms = true.
Proof. vm_compute. reflexivity. Qed.

Lemma blue_steps_ordered :
  forallb3 (fun fr fg fb =>
      PrimFloat.leb (fr + fg + fb.1)%float (fr + fg + fb.2)%float)
    red_terms green_terms blue_steps = true.
Proof. vm_compute. reflexivity. Qed.

Lemma u8_inj (a b : byte) : u8 a = u8 b → a = b.
Proof.
  unfold u8. intros H%N2Z.inj.
  pose proof (Byte.of_to_N a) as Ha. rewrite H, Byte.of_to_N in Ha.
  congruence.
Qed.

Lemma u8_next_level (b : byte) : u8 b < 255 → u8 (next_level b) = u8 b + 1.
Proof.
  intros Hb. pose proof (u8_range b). unfold next_level.
  rewrite u8_byte_of_Z, Z.min_r by lia. apply Z.mod_small. lia.
Qed.

Lemma luminance_red_step (r g b : byte) :
  luminance r g b <= luminance (next_level r) g b.
Proof.
  apply luminance_le_of_sums. unfold luma_sum.
  apply (forallb3_spec
           (fun fr fg fb =>
              PrimFloat.leb (fr.1 + fg + fb)%float (fr.2 + fg + fb)%float)
           _ _ _
           ((0.299 * double_of_u8 r)%float,
            (0.299 * double_of_u8 (next_level r))%float)
           _ _ red_steps_ordered).
  - apply (list_elem_of_fmap_2
             (fun r => ((0.299 * double_of_u8 r)%float,
                        (0.299 * double_of_u8 (next_level r))%float))),
      elem_of_all_bytes.
  - apply (list_elem_of_fmap_2 (fun g => (0.587 * double_of_u8 g)%float)),
      elem_of_all_bytes.
  - apply (list_elem_of_fmap_2 (fun b => (0.114 * double_of_u8 b)%float)),
      elem_of_all_bytes.
Qed.

Lemma luminance_green_step (r g b : byte) :
  luminance r g b <= luminance r (next_level g) b.
Proof.
  apply luminance_le_of_sums. unfold luma_sum.
  apply (forallb3_spec
           (fun fr fg fb =>
              PrimFloat.leb (fr + fg.1 + fb)%float (fr + fg.2 + fb)%float)
           _ _ _ _
           ((0.587 * double_of_u8 g)%float,
            (0.587 * double_of_u8 (next_level g))%float)
           _ green_steps_ordered).
  - apply (list_elem_of_fmap_2 (fun r => (0.299 * double_of_u8 r)%float)),
      elem_of_all_bytes.
  - apply (list_elem_of_fmap_2
             (fun g => ((0.587 * double_of_u8 g)%float,
                        (0.587 * double_of_u8 (next_level g))%float))),
      elem_of_all_bytes.
  - apply (list_elem_of_fmap_2 (fun b => (0.114 * double_of_u8 b)%float)),
      elem_of_all_bytes.
Qed.

Lemma luminance_blue_step (r g b : byte) :
  luminance r g b <= luminance r g (next_level b).
Proof.
  apply luminance_le_of_sums. unfold luma_sum.
  apply (forallb3_spec
           (fun fr fg fb =>
              PrimFloat.leb (fr + fg + fb.1)%float (fr + fg + fb.2)%float)
           _ _ _ _ _
           ((0.114 * double_of_u8 b)%float,
            (0.114 * double_of_u8 (next_level b))%float)
           blue_steps_ordered).
  - apply (list_elem_of_fmap_2 (fun r => (0.299 * double_of_u8 r)%float)),
      elem_of_all_bytes.
  - apply (list_elem_of_fmap_2 (fun g => (0.587 * double_of_u8 g)%float)),
      elem_of_all_bytes.
  - apply (list_elem_of_fmap_2
             (fun b => ((0.114 * double_of_u8 b)%float,
                        (0.114 * double_of_u8 (next_level b))%float))),
      elem_of_all_bytes.
Qed.

(** A function of a byte that does not decrease from a level to the next does
    not decrease between any two levels. *)
Lemma steps_monotone (f : byte → Z) :
  (∀ x, f x <= f (next_level x)) →
  ∀ x y, u8 x <= u8 y → f x <= f y.
Proof.
  intros Hstep x y Hxy.
  remember (Z.to_nat (u8 y - u8 x)) as n eqn:Hn.
  revert x Hxy Hn. induction n as [|n IH]; intros x Hxy Hn.
  - assert (x = y) as -> by (apply u8_inj; lia). lia.
  - pose proof (u8_range y).
    assert (u8 (next_level x) = u8 x + 1) as Hx by (apply u8_next_level; lia).
    etrans; [apply Hstep|]. apply IH; lia.
Qed.

Lemma luminance_mono (r g b r' g' b' : byte) :
  u8 r <= u8 r' → u8 g <= u8 g' → u8 b <= u8 b' →
  luminance r g b <= luminance r' g' b'.
Proof.
  intros Hr Hg Hb.
  trans (luminance r' g b).
  { apply (steps_monotone (fun x => luminance x g b)); [|done].
    intros x. apply luminance_red_step. }
  trans (luminance r' g' b).
  { apply (steps_monotone (fun x => luminance r' x b)); [|done].
    intros x. apply luminance_green_step. }
  apply (steps_monotone (fun x => luminance r' g' x)); [|done].
  intros x. apply luminance_blue_step.
Qed.

Lemma gray_luminance_bounds (v : byte) : u8 v - 1 <= luminance v v v <= u8 v.
Proof.
  pose proof gray_within_one_all as H. rewrite forallb_forall in H.
  specialize (H v (proj1 (list_elem_of_In _ _) (elem_of_all_bytes v))).
  unfold gray_within_one in H. unfold luminance.
  destruct (luma v v v) as [t|]; [|done].
  apply orb_prop in H as [Ht%Z.eqb_eq|Ht%Z.eqb_eq]; subst; simpl; lia.
Qed.

(** X15. The conversion is monotone: a pixel no darker than another in each
    of its three channels gets a gray value that is no smaller, the rounding
    of the three products and of their sums notwithstanding. *)
Theorem luma_monotone (r g b r' g' b' : byte) :
  u8 r <= u8 r' → u8 g <= u8 g' → u8 b <= u8 b' →
  ∃ t t', luma r g b = Some t ∧ luma r' g' b' = Some t' ∧ t <= t'.
Proof.
  intros Hr Hg Hb. exists (luminance r g b), (luminance r' g' b').
  split_and!; [apply luma_luminance|apply luma_luminance|].
  by apply luminance_mono.
Qed.

Lemma luma_monotone_witness :
  ∃ t t', luma x10 x80 xff = Some t ∧ luma x11 x80 xff = Some t' ∧ t <= t'.
Proof.
  apply (luma_monotone x10 x80 xff x11 x80 xff); vm_compute; discriminate.
Defined.

(** X16. The gray value of a pixel lies between its smallest channel less
    one and its largest channel: the conversion never leaves the range of the
    pixel's own channels by more than the one level lost to truncation. *)
Theorem luma_between_channels (r g b : byte) :
  ∃ t, luma r g b = Some t
       ∧ Z.min (u8 r) (Z.min (u8 g) (u8 b)) - 1 <= t
           <= Z.max (u8 r) (Z.max (u8 g) (u8 b)).
Proof.
  exists (luminance r g b). split; [apply luma_luminance|].
  pose proof (u8_range r). pose proof (u8_range g). pose proof (u8_range b).
  set (lo := Z.min (u8 r) (Z.min (u8 g) (u8 b))).
  set (hi := Z.max (u8 r) (Z.max (u8 g) (u8 b))).
  assert (u8 (byte_of_Z lo) = lo) as Hlo
    by (rewrite u8_byte_of_Z; apply Z.mod_small; lia).
  assert (u8 (byte_of_Z hi) = hi) as Hhi
    by (rewrite u8_byte_of_Z; apply Z.mod_small; lia).
  pose proof (gray_luminance_bounds (byte_of_Z lo)) as Hglo.
  pose proof (gray_luminance_bounds (byte_of_Z hi)) as Hghi.
  pose proof (luminance_mono (byte_of_Z lo) (byte_of_Z lo) (byte_of_Z lo)
                r g b ltac:(lia) ltac:(lia) ltac:(lia)) as Hlow.
  pose proof (luminance_mono r g b
                (byte_of_Z hi) (byte_of_Z hi) (byte_of_Z hi)
                ltac:(lia) ltac:(lia) ltac:(lia)) as Hhigh.
  lia.
Qed.
